(** * Air-quality dashboard: the pollutant-to-risk scoring engine

    A shallow embedding of the scoring core of [app7.py]: the AQI
    converter (three textual copies), the PM2.5 estimator, the forecast
    aggregator and the agriculture, healthcare, travel and real-estate
    scoring functions, followed by the properties stated for them.

    Numbers.  Python [float] and [int] values are embedded as exact
    rationals [Q] (and [Z] where the code produces an [int]); the
    arithmetic of the source is kept operation by operation, in the order
    in which it is written.  Rounding of binary floating point is not part
    of that model; the AQI converter is embedded a second time on IEEE 754
    binary64 values ([Binary64]) to check the rational model at the
    breakpoints.

    Dictionaries.  The [air_quality] object is a [gmap string Q]; payload
    sections are records whose fields are [option]s (a key may be absent);
    the fixed sensitivity tables are association lists, because the code
    iterates them in insertion order.

    Errors.  A subscript [d['k']] on an absent key raises [KeyError]; the
    functions therefore live in a small error monad [result]. *)

From Stdlib Require Import QArith Qminmax Lqa ZArith Lia String Ascii List.
From Stdlib Require Import SpecFloat.
From stdpp Require Import gmap strings list fin_maps.
Import ListNotations.

Local Open Scope string_scope.
Local Open Scope Q_scope.

(** ** Python numbers *)

Module Py.

(** [int(x)]: truncation toward zero. *)
Definition int (x : Q) : Z := Z.quot (Qnum x) (Zpos (Qden x)).

(** [x < y] and [x <= y] as tests. *)
Definition ltb (x y : Q) : bool := negb (Qle_bool y x).
Definition leb (x y : Q) : bool := Qle_bool x y.

(** [min(a, b)] keeps [a] unless [b < a]; [max(a, b)] keeps [a] unless
    [b > a]. *)
Definition min (a b : Q) : Q := if ltb b a then b else a.
Definition max (a b : Q) : Q := if ltb a b then b else a.

(** Truth value of a number: [bool(x)] is [x != 0]. *)
Definition truthy (x : Q) : bool := negb (Qeq_bool x 0).

(** [a / b] on two [int]s is true division. *)
Definition truediv (a b : Z) : Q := inject_Z a / inject_Z b.

(** [str.lower()] on the ASCII letters. *)
Definition lower_ascii (c : ascii) : ascii :=
  let n := nat_of_ascii c in
  if (Nat.leb 65 n && Nat.leb n 90)%bool then ascii_of_nat (n + 32) else c.

Fixpoint lower (s : string) : string :=
  match s with
  | EmptyString => EmptyString
  | String c s' => String (lower_ascii c) (lower s')
  end.

(** [l[:n]] for an [int] n: a negative [n] counts from the end. *)
Definition slice_to {A} (l : list A) (n : Z) : list A :=
  if (0 <=? n)%Z then firstn (Z.to_nat n) l
  else firstn (length l - Z.to_nat (- n))%nat l.

(** An insertion-ordered [dict] with string keys: [d.get(k)] and
    [d[k] = v]. *)
Fixpoint get {V} (key : string) (d : list (string * V)) : option V :=
  match d with
  | [] => None
  | (k, v) :: rest => if String.eqb k key then Some v else get key rest
  end.

Fixpoint set {V} (key : string) (v : V) (d : list (string * V)) : list (string * V) :=
  match d with
  | [] => [(key, v)]
  | (k, w) :: rest =>
      if String.eqb k key then (k, v) :: rest else (k, w) :: set key v rest
  end.

(** [np.mean(values)] on a non-empty list, as the exact mean; the code's
    value is this mean rounded by binary64 arithmetic. *)
Definition mean (values : list Q) : Q :=
  fold_right Qplus 0 values / inject_Z (Z.of_nat (length values)).

End Py.

(** ** Exceptions *)

Inductive exn : Type :=
  | KeyError (key : string).

Inductive result (A : Type) : Type :=
  | Ok (a : A)
  | Raise (e : exn).
Arguments Ok {A} a.
Arguments Raise {A} e.

#[global] Instance result_ret : MRet result := fun A a => Ok a.
#[global] Instance result_bind : MBind result := fun A B f m =>
  match m with
  | Ok a => f a
  | Raise e => Raise e
  end.

(** [d[key]]: the field when present, [KeyError] otherwise. *)
Definition subscript {A} (key : string) (field : option A) : result A :=
  match field with
  | Some a => Ok a
  | None => Raise (KeyError key)
  end.

(** ** The provider's payload *)

Record location_t := {
  name : string;
  region : string;
  lat : Q;
  lon : Q
}.

(** The [current] object and each element of a day's [hour] array have the
    same shape. *)
Record weather_t := {
  time : option string;
  temp_c : option Q;
  humidity : option Q;
  wind_kph : option Q;
  pressure_mb : option Q;
  air_quality : option (gmap string Q)
}.

Record day_t := {
  date : option string;
  hour : option (list weather_t)
}.

Record forecast_t := {
  forecastday : option (list day_t)
}.

(** A decoded JSON response.  [others] lists any further top-level keys;
    the code never reads their values. *)
Record payload := {
  location : option location_t;
  current : option weather_t;
  forecast : option forecast_t;
  others : list string
}.

(** ['k' in d] for a section [k] of a response [d]. *)
Definition has {A} (field : option A) : bool :=
  match field with
  | Some _ => true
  | None => false
  end.

(** [bool(d)] for a response: a [dict] is true when it has a key. *)
Definition has_keys (d : payload) : bool :=
  has (location d) || has (current d) || has (forecast d)
  || negb (match others d with [] => true | _ => false end).

(** [not air_data], where [None] is Python's [None]. *)
Definition py_not (air_data : option payload) : bool :=
  match air_data with
  | None => true
  | Some d => negb (has_keys d)
  end.

(** [air_quality.get(key, 0)] and the truth value of [air_quality.get(key)]. *)
Definition aq_get (air_quality : gmap string Q) (key : string) : Q :=
  default 0 (air_quality !! key).

Definition aq_present (air_quality : gmap string Q) (key : string) : bool :=
  match air_quality !! key with
  | Some v => Py.truthy v
  | None => false
  end.

(** [d['location']], under a name that a [location] argument cannot hide. *)
Definition payload_location (d : payload) : option location_t := location d.

(** The collaborator that fetches the current snapshot of a place. *)
Record analyzer := {
  get_air_quality_data : string -> option payload
}.

(** ** PollutionAnalyzer: the forecast aggregator *)

Module PollutionAnalyzer.

(** One row of the returned frame: the date and, per pollutant, the
    daily average. *)
Record daily_avg := {
  avg_date : string;
  averages : list (string * Q)
}.

Definition pollutants : list string :=
  ["pm2_5"; "pm10"; "o3"; "no2"; "so2"; "co"].

(** The comprehension
    [[hour['air_quality'].get(p, 0) for hour in hours
       if hour['air_quality'].get(p)]]. *)
Fixpoint hour_values (pollutant : string) (hours : list weather_t)
  : result (list Q) :=
  match hours with
  | [] => Ok []
  | h :: rest =>
      aq ← subscript "air_quality" (air_quality h);
      vs ← hour_values pollutant rest;
      Ok (if aq_present aq pollutant then aq_get aq pollutant :: vs else vs)
  end.

(** The inner loop over [pollutants]. *)
Fixpoint pollutant_loop (ps : list string) (hours : list weather_t)
  (acc : list (string * Q)) : result (list (string * Q)) :=
  match ps with
  | [] => Ok acc
  | pollutant :: rest =>
      values ← hour_values pollutant hours;
      pollutant_loop rest hours
        (Py.set pollutant
           (match values with [] => 0 | _ => Py.mean values end) acc)
  end.

Definition day_average (day : day_t) : result daily_avg :=
  d ← subscript "date" (date day);
  avgs ← pollutant_loop pollutants (default [] (hour day)) [];
  Ok {| avg_date := d; averages := avgs |}.

(** The outer loop over the days. *)
Fixpoint day_loop (ds : list day_t) : result (list daily_avg) :=
  match ds with
  | [] => Ok []
  | day :: rest =>
      row ← day_average day;
      rows ← day_loop rest;
      Ok (row :: rows)
  end.

Definition process_forecast_data (forecast_data : option payload) (days : Z)
  : result (option (list daily_avg)) :=
  match forecast_data with
  | None => Ok None
  | Some d =>
      if negb (has_keys d) || negb (has (forecast d)) then Ok None
      else
        fc ← subscript "forecast" (forecast d);
        fdays ← subscript "forecastday" (forecastday fc);
        rows ← day_loop (Py.slice_to fdays days);
        Ok (Some rows)
  end.

(** *** The constructor, key validation and the two fetches

    [st.error] calls and HTTP requests are effects: each function returns
    its value together with the events it caused, in order. *)

Definition DEFAULT_GROQ_API_KEY : string := "Your API".
Definition WEATHER_BASE_URL : string := "http://api.weatherapi.com/v1".

Record t := {
  weather_api_key : option string;
  groq_api_key : option string;
  weather_base_url : string
}.

(** Truth value of a key: [None] and the empty string are false. *)
Definition key_given (k : option string) : bool :=
  match k with
  | Some (String _ _) => true
  | _ => false
  end.

Definition init (weather_api_key groq_api_key : option string) : t :=
  {| weather_api_key := weather_api_key;
     groq_api_key :=
       if key_given groq_api_key then groq_api_key
       else Some DEFAULT_GROQ_API_KEY;
     weather_base_url := WEATHER_BASE_URL |}.

Inductive param : Type :=
  | PStr (s : string)
  | PInt (n : Z)
  | PNone.

Inductive event : Type :=
  | Shown (msg : string)
  | Get (url : string) (params : list (string * param)).

(** The network: a GET either fails with an exception, whose text is
    given, or yields the decoded JSON body. *)
Definition http_t : Type := string -> list (string * param) -> string + payload.

Definition validate_api_keys (self : t) : bool * list event :=
  if negb (key_given (weather_api_key self)) then
    (false, [Shown "Please provide a valid WeatherAPI key."])
  else if negb (key_given (groq_api_key self)) then
    (false, [Shown "Please provide a valid Grok API key or use the default."])
  else (true, []).

Definition key_param (k : option string) : param :=
  match k with
  | Some s => PStr s
  | None => PNone
  end.

Definition get_air_quality_data (self : t) (http : http_t) (location : string)
  : option payload * list event :=
  let '(valid, shown) := validate_api_keys self in
  if negb valid then (None, shown)
  else
    let url := weather_base_url self ++ "/current.json" in
    let params :=
      [("key", key_param (weather_api_key self)); ("q", PStr location);
       ("aqi", PStr "yes")] in
    match http url params with
    | inr json => (Some json, (shown ++ [Get url params])%list)
    | inl e =>
        (None,
         (shown ++ [Get url params;
                    Shown ("Error fetching air quality data: " ++ e)])%list)
    end.

Definition get_weather_forecast (self : t) (http : http_t) (location : string)
  (days : Z) : option payload * list event :=
  let '(valid, shown) := validate_api_keys self in
  if negb valid then (None, shown)
  else
    let url := weather_base_url self ++ "/forecast.json" in
    let params :=
      [("key", key_param (weather_api_key self)); ("q", PStr location);
       ("days", PInt days); ("aqi", PStr "yes")] in
    match http url params with
    | inr json => (Some json, (shown ++ [Get url params])%list)
    | inl e =>
        (None,
         (shown ++ [Get url params;
                    Shown ("Error fetching forecast: " ++ e)])%list)
    end.

(** The collaborator the domain modules hold: the analyzer, as a source
    of current snapshots. *)
Definition as_analyzer (self : t) (http : http_t) : analyzer :=
  Build_analyzer (fun location => fst (get_air_quality_data self http location)).

End PollutionAnalyzer.

(** ** AgricultureModule *)

Module AgricultureModule.

Definition crop_sensitivity : list (string * list (string * Q)) :=
  [ ("wheat",   [("o3", 0.12); ("so2", 0.08); ("no2", 0.05); ("pm25", 0.10)]);
    ("rice",    [("o3", 0.05); ("so2", 0.03); ("no2", 0.02); ("pm25", 0.04)]);
    ("corn",    [("o3", 0.15); ("so2", 0.10); ("no2", 0.07); ("pm25", 0.12)]);
    ("soybean", [("o3", 0.18); ("so2", 0.12); ("no2", 0.08); ("pm25", 0.14)]);
    ("cotton",  [("o3", 0.10); ("so2", 0.06); ("no2", 0.04); ("pm25", 0.08)]) ].

Record pollutant_impact := {
  value : Q;
  impact_percent : Q;
  risk_level : string
}.

Record crop_impact := {
  total_yield_loss : Q;
  pollutant_impacts : list (string * pollutant_impact);
  air_quality_data : gmap string Q;
  location_data : location_t
}.

Definition get_risk_level (impact : Q) : string :=
  if Py.ltb impact 2 then "Low"
  else if Py.ltb impact 5 then "Moderate"
  else if Py.ltb impact 10 then "High"
  else "Critical".

(** The [if]/[elif] chain of the loop body: the concentration read and
    its clipped ratio; [None] is the [continue] branch. *)
Definition normalize (pollutant : string) (air_quality : gmap string Q)
  : option (Q * Q) :=
  if String.eqb pollutant "pm25" then
    let value := aq_get air_quality "pm2_5" in
    Some (value, Py.min (value / 15) 3.0)
  else if String.eqb pollutant "o3" then
    let value := aq_get air_quality "o3" in
    Some (value, Py.min (value / 100) 3.0)
  else if String.eqb pollutant "so2" then
    let value := aq_get air_quality "so2" in
    Some (value, Py.min (value / 20) 3.0)
  else if String.eqb pollutant "no2" then
    let value := aq_get air_quality "no2" in
    Some (value, Py.min (value / 40) 3.0)
  else None.

(** The rest of the loop body: the entry stored under
    [pollutant_impacts[pollutant]]. *)
Definition pollutant_entry (pollutant : string) (coefficient : Q)
  (air_quality : gmap string Q) : option pollutant_impact :=
  match normalize pollutant air_quality with
  | None => None
  | Some (v, normalized) =>
      let impact := coefficient * normalized * 100 in
      Some {| value := v; impact_percent := impact;
              risk_level := get_risk_level impact |}
  end.

(** The loop over [sensitivity.items()], threading [yield_loss] and
    [pollutant_impacts]. *)
Fixpoint impact_loop (items : list (string * Q)) (air_quality : gmap string Q)
  (yield_loss : Q) (pollutant_impacts : list (string * pollutant_impact))
  : Q * list (string * pollutant_impact) :=
  match items with
  | [] => (yield_loss, pollutant_impacts)
  | (pollutant, coefficient) :: rest =>
      match pollutant_entry pollutant coefficient air_quality with
      | None => impact_loop rest air_quality yield_loss pollutant_impacts
      | Some entry =>
          impact_loop rest air_quality (yield_loss + impact_percent entry)
            (Py.set pollutant entry pollutant_impacts)
      end
  end.

Definition predict_crop_impact (self : analyzer) (location crop_type : string)
  : result (option crop_impact) :=
  let air_data := get_air_quality_data self location in
  match air_data with
  | None => Ok None
  | Some d =>
      if negb (has_keys d) || negb (has (current d)) then Ok None
      else
        cur ← subscript "current" (current d);
        let air_quality := default ∅ (air_quality cur) in
        wheat ← subscript "wheat" (Py.get "wheat" crop_sensitivity);
        let sensitivity :=
          default wheat (Py.get (Py.lower crop_type) crop_sensitivity) in
        let '(yield_loss, impacts) := impact_loop sensitivity air_quality 0 [] in
        loc ← subscript "location" (payload_location d);
        Ok (Some {| total_yield_loss := Py.min yield_loss 50;
                    pollutant_impacts := impacts;
                    air_quality_data := air_quality;
                    location_data := loc |})
  end.

End AgricultureModule.

(** ** SmartCitiesModule: the PM2.5 estimator and the AQI converter *)

Module SmartCitiesModule.

Definition predict_pm25 (weather_data : weather_t) : result Q :=
  let base_pm25 := 35 in
  t ← subscript "temp_c" (temp_c weather_data);
  let temp_factor := Py.max 0 ((t - 25) / 10) * 5 in
  h ← subscript "humidity" (humidity weather_data);
  let humidity_factor := (h - 50) / 50 * 10 in
  w ← subscript "wind_kph" (wind_kph weather_data);
  let wind_factor := Py.max 0 ((10 - w) / 10) * 15 in
  let predicted_pm25 := base_pm25 + temp_factor + humidity_factor + wind_factor in
  Ok (Py.max 5 (Py.min predicted_pm25 200)).

Definition calculate_aqi (pm25 : Q) : Z :=
  if Py.leb pm25 12 then Py.int ((50 / 12) * pm25)
  else if Py.leb pm25 35.4 then
    Py.int (50 + ((100 - 50) / (35.4 - 12.1)) * (pm25 - 12.1))
  else if Py.leb pm25 55.4 then
    Py.int (100 + ((150 - 100) / (55.4 - 35.5)) * (pm25 - 35.5))
  else if Py.leb pm25 150.4 then
    Py.int (150 + ((200 - 150) / (150.4 - 55.5)) * (pm25 - 55.5))
  else
    Z.min 300
      (Py.int (200 + ((300 - 200) / (250.4 - 150.5)) * (pm25 - 150.5))).

(** One element of [daily_predictions]. *)
Record prediction := {
  datetime : string;
  temp : Q;
  humidity_pct : Q;
  wind_speed : Q;
  pressure : Q;
  predicted_pm25 : Q;
  predicted_aqi : Z
}.

(** The body of the inner loop.  The default argument of
    [air_quality.get('pm2_5', self.predict_pm25(hour))] is evaluated
    whether or not the key is present. *)
Definition predict_hour (h : weather_t) : result prediction :=
  let aq := default ∅ (air_quality h) in
  tm ← subscript "time" (time h);
  t ← subscript "temp_c" (temp_c h);
  hu ← subscript "humidity" (humidity h);
  w ← subscript "wind_kph" (wind_kph h);
  p ← subscript "pressure_mb" (pressure_mb h);
  est ← predict_pm25 h;
  est' ← predict_pm25 h;
  Ok {| datetime := tm; temp := t; humidity_pct := hu; wind_speed := w;
        pressure := p;
        predicted_pm25 := default est (aq !! "pm2_5");
        predicted_aqi := calculate_aqi (default est' (aq !! "pm2_5")) |}.

Fixpoint hour_loop (hours : list weather_t) (acc : list prediction)
  : result (list prediction) :=
  match hours with
  | [] => Ok acc
  | h :: rest =>
      row ← predict_hour h;
      hour_loop rest (acc ++ [row])%list
  end.

Fixpoint trend_loop (ds : list day_t) (acc : list prediction)
  : result (list prediction) :=
  match ds with
  | [] => Ok acc
  | day :: rest =>
      acc' ← hour_loop (default [] (hour day)) acc;
      trend_loop rest acc'
  end.

Definition predict_air_quality_trends (forecast_data : option payload)
  (days : Z) : result (option (list prediction)) :=
  match forecast_data with
  | None => Ok None
  | Some d =>
      if negb (has_keys d) || negb (has (forecast d)) then Ok None
      else
        fc ← subscript "forecast" (forecast d);
        fdays ← subscript "forecastday" (forecastday fc);
        rows ← trend_loop (Py.slice_to fdays days) [];
        Ok (Some rows)
  end.

End SmartCitiesModule.

(** ** HealthcareModule *)

Module HealthcareModule.

Definition risk_profiles : list (string * list (string * Q)) :=
  [ ("child",         [("pm25", 1.5); ("o3", 1.3); ("no2", 1.2); ("so2", 1.4)]);
    ("adult",         [("pm25", 1.0); ("o3", 1.0); ("no2", 1.0); ("so2", 1.0)]);
    ("elderly",       [("pm25", 1.8); ("o3", 1.6); ("no2", 1.4); ("so2", 1.7)]);
    ("asthma",        [("pm25", 2.2); ("o3", 2.0); ("no2", 1.8); ("so2", 2.1)]);
    ("heart_disease", [("pm25", 2.0); ("o3", 1.7); ("no2", 1.5); ("so2", 1.8)]) ].

Record pollutant_risk := {
  value : Q;
  risk_score : Q;
  risk_level : string
}.

Record health_risk := {
  overall_risk_score : Q;
  overall_risk_level : string;
  pollutant_risks : list (string * pollutant_risk);
  recommendations : list string;
  air_quality_data : gmap string Q
}.

Definition get_health_risk_level (score : Q) : string :=
  if Py.ltb score 2 then "Low"
  else if Py.ltb score 4 then "Moderate"
  else if Py.ltb score 6 then "High"
  else if Py.ltb score 8 then "Very High"
  else "Hazardous".

(** [conditions and c in conditions]; [None] is the default argument. *)
Definition flagged (c : string) (conditions : option (list string)) : bool :=
  match conditions with
  | None => false
  | Some [] => false
  | Some l => existsb (String.eqb c) l
  end.

Definition generate_health_recommendations (risk_score : Q)
  (age_group : string) (conditions : option (list string)) : list string :=
  let recommendations :=
    if Py.ltb risk_score 2 then
      ["Air quality is good. Normal outdoor activities are safe.";
       "Continue regular exercise routines."]
    else if Py.ltb risk_score 4 then
      ["Moderate air pollution. Sensitive individuals should limit outdoor activities.";
       "Consider indoor exercise on high pollution days."]
    else if Py.ltb risk_score 6 then
      ["Unhealthy air quality. Limit outdoor activities, especially vigorous exercise.";
       "Use air purifiers indoors."; "Wear N95 masks when outdoors."]
    else
      ["Hazardous air quality. Avoid outdoor activities.";
       "Stay indoors with air purification.";
       "Seek medical attention if experiencing respiratory issues."] in
  let recommendations :=
    if String.eqb age_group "child" then
      (recommendations ++ ["Keep children indoors during high pollution periods."])%list
    else if String.eqb age_group "elderly" then
      (recommendations
         ++ ["Elderly individuals should be extra cautious and monitor symptoms."])%list
    else recommendations in
  let recommendations :=
    if flagged "asthma" conditions then
      (recommendations ++ ["Keep rescue inhalers readily available."])%list
    else recommendations in
  if flagged "heart_disease" conditions then
    (recommendations ++ ["Monitor heart rate and blood pressure regularly."])%list
  else recommendations.

(** The conditional expression that selects the profile. *)
Definition select_profile (age_group : string)
  (conditions : option (list string)) : result (list (string * Q)) :=
  if flagged "asthma" conditions then
    subscript "asthma" (Py.get "asthma" risk_profiles)
  else if flagged "heart_disease" conditions then
    subscript "heart_disease" (Py.get "heart_disease" risk_profiles)
  else
    adult ← subscript "adult" (Py.get "adult" risk_profiles);
    Ok (default adult (Py.get age_group risk_profiles)).

(** The ratio of a concentration to its reference value. *)
Definition normalize (pollutant : string) (v : Q) : Q :=
  if String.eqb pollutant "pm25" then v / 15
  else if String.eqb pollutant "o3" then v / 100
  else if String.eqb pollutant "no2" then v / 40
  else v / 20.

(** The loop body: the entry stored under [health_risks[pollutant]];
    [None] when the pollutant is not in the profile. *)
Definition pollutant_entry (pollutant : string) (v : Q)
  (profile : list (string * Q)) : option pollutant_risk :=
  match Py.get pollutant profile with
  | None => None
  | Some coefficient =>
      let normalized := normalize pollutant v in
      let score := Py.min (normalized * coefficient * 10) 10 in
      Some {| value := v; risk_score := score;
              risk_level := get_health_risk_level score |}
  end.

(** The loop over [pollutants.items()], threading [total_risk_score] and
    [health_risks]. *)
Fixpoint risk_loop (items : list (string * Q)) (profile : list (string * Q))
  (total_risk_score : Q) (health_risks : list (string * pollutant_risk))
  : Q * list (string * pollutant_risk) :=
  match items with
  | [] => (total_risk_score, health_risks)
  | (pollutant, v) :: rest =>
      match pollutant_entry pollutant v profile with
      | None => risk_loop rest profile total_risk_score health_risks
      | Some entry =>
          risk_loop rest profile (total_risk_score + risk_score entry)
            (Py.set pollutant entry health_risks)
      end
  end.

Definition assess_health_risk (self : analyzer) (location age_group : string)
  (conditions : option (list string)) : result (option health_risk) :=
  let air_data := get_air_quality_data self location in
  match air_data with
  | None => Ok None
  | Some d =>
      if negb (has_keys d) || negb (has (current d)) then Ok None
      else
        cur ← subscript "current" (current d);
        let air_quality := default ∅ (air_quality cur) in
        profile ← select_profile age_group conditions;
        let pollutants :=
          [("pm25", aq_get air_quality "pm2_5"); ("o3", aq_get air_quality "o3");
           ("no2", aq_get air_quality "no2"); ("so2", aq_get air_quality "so2")] in
        let '(total_risk_score, health_risks) :=
          risk_loop pollutants profile 0 [] in
        let overall_risk := Py.min (total_risk_score / 4) 10 in
        Ok (Some {| overall_risk_score := overall_risk;
                    overall_risk_level := get_health_risk_level overall_risk;
                    pollutant_risks := health_risks;
                    recommendations :=
                      generate_health_recommendations overall_risk age_group conditions;
                    air_quality_data := air_quality |})
  end.

End HealthcareModule.

(** ** TravelEcoTourismModule *)

Module TravelEcoTourismModule.

Record route := {
  start_city : string;
  end_city : string;
  start_aqi : Z;
  end_aqi : Z;
  route_score : Q;
  route_status : string;
  start_location : location_t;
  end_location : location_t
}.

Definition calculate_aqi (pm25 : Q) : Z :=
  if Py.leb pm25 12 then Py.int ((50 / 12) * pm25)
  else if Py.leb pm25 35.4 then
    Py.int (50 + ((100 - 50) / (35.4 - 12.1)) * (pm25 - 12.1))
  else if Py.leb pm25 55.4 then
    Py.int (100 + ((150 - 100) / (55.4 - 35.5)) * (pm25 - 35.5))
  else if Py.leb pm25 150.4 then
    Py.int (150 + ((200 - 150) / (150.4 - 55.5)) * (pm25 - 55.5))
  else
    Z.min 300
      (Py.int (200 + ((300 - 200) / (250.4 - 150.5)) * (pm25 - 150.5))).

(** [data['current']['air_quality'].get('pm2_5', 0)]. *)
Definition current_pm25 (data : payload) : result Q :=
  cur ← subscript "current" (current data);
  aq ← subscript "air_quality" (air_quality cur);
  Ok (aq_get aq "pm2_5").

Definition optimize_low_pollution_route (self : analyzer)
  (start_city end_city : string) : result (option route) :=
  let start_data := get_air_quality_data self start_city in
  let end_data := get_air_quality_data self end_city in
  if py_not start_data || py_not end_data then Ok None
  else
    match start_data, end_data with
    | Some sd, Some ed =>
        start_pm25 ← current_pm25 sd;
        let s_aqi := calculate_aqi start_pm25 in
        end_pm25 ← current_pm25 ed;
        let e_aqi := calculate_aqi end_pm25 in
        let score := Py.truediv (s_aqi + e_aqi) 2 in
        let status :=
          if Py.ltb score 50 then "Low Pollution"
          else if Py.ltb score 100 then "Moderate Pollution"
          else "High Pollution" in
        s_loc ← subscript "location" (location sd);
        e_loc ← subscript "location" (location ed);
        Ok (Some {| start_city := start_city; end_city := end_city;
                    start_aqi := s_aqi; end_aqi := e_aqi;
                    route_score := score; route_status := status;
                    start_location := s_loc; end_location := e_loc |})
    | _, _ => Ok None
    end.

(** One element of [clean_destinations]. *)
Record destination := {
  city : string;
  aqi : Z;
  dest_location : location_t
}.

Fixpoint identify_clean_air_destinations (self : analyzer)
  (cities : list string) : result (list destination) :=
  match cities with
  | [] => Ok []
  | c :: rest =>
      here ←
        match get_air_quality_data self c with
        | Some d =>
            if has_keys d && has (current d) then
              pm ← current_pm25 d;
              let a := calculate_aqi pm in
              if (a <? 50)%Z then
                loc ← subscript "location" (location d);
                Ok [{| city := c; aqi := a; dest_location := loc |}]
              else Ok []
            else Ok []
        | None => Ok []
        end;
      others ← identify_clean_air_destinations self rest;
      Ok (here ++ others)%list
  end.

End TravelEcoTourismModule.

(** ** RealEstateUrbanPlanningModule *)

Module RealEstateUrbanPlanningModule.

(** The returned [dict]; its ['location'] key is the field [site]. *)
Record suitability := {
  site : string;
  aqi : Z;
  pm25 : Q;
  suitability_score : Q;
  suitability_level : string;
  air_quality_data : gmap string Q;
  location_data : location_t
}.

Definition calculate_aqi (pm25 : Q) : Z :=
  if Py.leb pm25 12 then Py.int ((50 / 12) * pm25)
  else if Py.leb pm25 35.4 then
    Py.int (50 + ((100 - 50) / (35.4 - 12.1)) * (pm25 - 12.1))
  else if Py.leb pm25 55.4 then
    Py.int (100 + ((150 - 100) / (55.4 - 35.5)) * (pm25 - 35.5))
  else if Py.leb pm25 150.4 then
    Py.int (150 + ((200 - 150) / (150.4 - 55.5)) * (pm25 - 55.5))
  else
    Z.min 300
      (Py.int (200 + ((300 - 200) / (250.4 - 150.5)) * (pm25 - 150.5))).

Definition assess_site_suitability (self : analyzer) (location : string)
  : result (option suitability) :=
  let air_data := get_air_quality_data self location in
  match air_data with
  | None => Ok None
  | Some d =>
      if negb (has_keys d) || negb (has (current d)) then Ok None
      else
        cur ← subscript "current" (current d);
        let air_quality := default ∅ (air_quality cur) in
        let pm := aq_get air_quality "pm2_5" in
        let a := calculate_aqi pm in
        let score := Py.max 0 (100 - Py.truediv a 3) in
        let level :=
          if Py.ltb 80 score then "High"
          else if Py.ltb 50 score then "Moderate"
          else "Low" in
        loc ← subscript "location" (payload_location d);
        Ok (Some {| site := location; aqi := a; pm25 := pm;
                    suitability_score := score; suitability_level := level;
                    air_quality_data := air_quality; location_data := loc |})
  end.

End RealEstateUrbanPlanningModule.

(** ** The AQI converter on binary64 values *)

Module Binary64.

Definition prec : Z := 53.
Definition emax : Z := 1024.

(** An [int] operand converted to [float]. *)
Definition of_int (z : Z) : spec_float := binary_normalize prec emax z 0 false.

Definition add : spec_float -> spec_float -> spec_float := SFadd prec emax.
Definition sub : spec_float -> spec_float -> spec_float := SFsub prec emax.
Definition mul : spec_float -> spec_float -> spec_float := SFmul prec emax.
Definition div : spec_float -> spec_float -> spec_float := SFdiv prec emax.

(** A decimal literal [n/10^k]: the binary64 value nearest to it, which is
    the correctly rounded quotient of the two integers. *)
Definition lit (q : Q) : spec_float :=
  div (of_int (Qnum q)) (of_int (Zpos (Qden q))).

(** [int(x)]; [None] stands for the [ValueError] or [OverflowError] raised
    on NaN or an infinity. *)
Definition int (x : spec_float) : option Z :=
  match x with
  | S754_zero _ => Some 0%Z
  | S754_finite s m e =>
      let a := if (0 <=? e)%Z then (Zpos m * 2 ^ e)%Z
               else (Zpos m / 2 ^ (- e))%Z in
      Some (if s then (- a)%Z else a)
  | _ => None
  end.

Definition calculate_aqi (pm25 : spec_float) : option Z :=
  if SFleb pm25 (of_int 12) then int (mul (div (of_int 50) (of_int 12)) pm25)
  else if SFleb pm25 (lit 35.4) then
    int (add (of_int 50)
           (mul (div (of_int (100 - 50)) (sub (lit 35.4) (lit 12.1)))
                (sub pm25 (lit 12.1))))
  else if SFleb pm25 (lit 55.4) then
    int (add (of_int 100)
           (mul (div (of_int (150 - 100)) (sub (lit 55.4) (lit 35.5)))
                (sub pm25 (lit 35.5))))
  else if SFleb pm25 (lit 150.4) then
    int (add (of_int 150)
           (mul (div (of_int (200 - 150)) (sub (lit 150.4) (lit 55.5)))
                (sub pm25 (lit 55.5))))
  else
    option_map (Z.min 300)
      (int (add (of_int 200)
              (mul (div (of_int (300 - 200)) (sub (lit 250.4) (lit 150.5)))
                   (sub pm25 (lit 150.5))))).

(** The colour ladder of [create_pollution_map], a chain of [<=] tests,
    and that of [map_pollution_hotspots], a chain of [>] tests.  Every
    comparison with NaN is false. *)
Definition marker_color (pm25 : spec_float) : string :=
  if SFleb pm25 (of_int 12) then "green"
  else if SFleb pm25 (of_int 35) then "yellow"
  else if SFleb pm25 (of_int 55) then "orange"
  else "red".

Definition hotspot_color (pm25 : spec_float) : string :=
  if SFltb (of_int 55) pm25 then "red"
  else if SFltb (of_int 35) pm25 then "orange"
  else if SFltb (of_int 12) pm25 then "yellow"
  else "green".

(** The largest finite double. *)
Definition max_float : spec_float := S754_finite false (2 ^ 53 - 1) 971.

End Binary64.

(** ** The stated behaviour, in the words of the specification *)

Module Spec.

(** "Result clamped to [lo, hi]". *)
Definition clamp (lo hi x : Q) : Q :=
  if Qlt_le_dec x lo then lo else if Qlt_le_dec hi x then hi else x.

(** The PM2.5 estimator's formula. *)
Definition estimate_pm25 (temp_c humidity_pct wind_kph : Q) : Q :=
  clamp 5 200
    (35 + Qmax 0 ((temp_c - 25) / 10) * 5
        + (humidity_pct - 50) / 50 * 10
        + Qmax 0 ((10 - wind_kph) / 10) * 15).

(** Real-estate suitability: [100 - AQI/3], clamped at 0. *)
Definition suitability_score (aqi : Z) : Q :=
  Qmax 0 (100 - inject_Z aqi / 3).




(** The inputs strictly between the end of one row of the breakpoint
    table and the anchor of the next. *)
Definition in_gap (pm25 : Q) : Prop :=
  12 < pm25 < 12.1 \/ 35.4 < pm25 < 35.5
  \/ 55.4 < pm25 < 55.5 \/ 150.4 < pm25 < 150.5.

(** The reference denominators of the normalisation. *)
Definition reference (pollutant : string) : option Q :=
  if String.eqb pollutant "pm25" then Some 15
  else if String.eqb pollutant "o3" then Some 100
  else if String.eqb pollutant "no2" then Some 40
  else if String.eqb pollutant "so2" then Some 20
  else None.

(** The hours that qualify for a pollutant's daily mean: those where the
    pollutant is present with a non-zero value. *)
Definition qualifying (pollutant : string) (hours : list weather_t) : list Q :=
  omap (fun h : weather_t =>
          match air_quality h with
          | Some aq =>
              match aq !! pollutant with
              | Some v => if Qeq_dec v 0 then None else Some v
              | None => None
              end
          | None => None
          end) hours.

Definition sum (l : list Q) : Q := fold_right Qplus 0 l.

(** The arithmetic mean over the qualifying hours, 0 when there is none. *)
Definition daily_mean (pollutant : string) (hours : list weather_t) : Q :=
  match qualifying pollutant hours with
  | [] => 0
  | q => sum q / inject_Z (Z.of_nat (length q))
  end.

(** A forecast day that the aggregator can read: it carries its date,
    and each of its hours carries an [air_quality] object. *)
Definition readable (day : day_t) : Prop :=
  date day <> None
  /\ Forall (fun h : weather_t => air_quality h <> None) (default [] (hour day)).

(** A row is the aggregate of a day: same date, and every pollutant maps
    to its daily mean. *)
Definition aggregates (day : day_t) (row : PollutionAnalyzer.daily_avg) : Prop :=
  date day = Some (PollutionAnalyzer.avg_date row)
  /\ forall p, In p PollutionAnalyzer.pollutants ->
       Py.get p (PollutionAnalyzer.averages row)
       = Some (daily_mean p (default [] (hour day))).

End Spec.

(** ** Notions used in the statements *)

(** The sum of the [impact_percent] entries of a breakdown, and of the
    [risk_score] entries. *)
Definition impact_sum (l : list (string * AgricultureModule.pollutant_impact)) : Q :=
  fold_right (fun kv acc => AgricultureModule.impact_percent (snd kv) + acc) 0 l.

Definition risk_sum (l : list (string * HealthcareModule.pollutant_risk)) : Q :=
  fold_right (fun kv acc => HealthcareModule.risk_score (snd kv) + acc) 0 l.







(** ** Sample inputs *)

Module Sample.

Definition pune : location_t :=
  {| name := "Pune"; region := "Maharashtra"; lat := 18.52; lon := 73.86 |}.

(** PM2.5 = 10, O3 = 50, NO2 = 20, SO2 = 5. *)
Definition reading : gmap string Q :=
  <["pm2_5" := 10]> (<["o3" := 50]> (<["no2" := 20]> (<["so2" := 5]> ∅))).

Definition snapshot (aq : gmap string Q) : weather_t :=
  {| time := Some "2024-01-01 00:00"; temp_c := Some 30; humidity := Some 60;
     wind_kph := Some 4; pressure_mb := Some 1012; air_quality := Some aq |}.

(** A complete response. *)
Definition full : payload :=
  {| location := Some pune; current := Some (snapshot reading);
     forecast := None; others := [] |}.

(** The same place with O3 raised to 80. *)
Definition ozone_episode : payload :=
  {| location := Some pune;
     current := Some (snapshot (<["o3" := 80]> reading));
     forecast := None; others := [] |}.

(** A response that has a ['location'] section and no ['current'] one. *)
Definition location_only : payload :=
  {| location := Some pune; current := None; forecast := None; others := [] |}.

Definition serve (d : payload) : analyzer :=
  {| get_air_quality_data := fun _ => Some d |}.

(** Two forecast days: two hours on the first, none on the second. *)
Definition two_days : payload :=
  {| location := Some pune; current := None;
     forecast := Some {| forecastday := Some
       [ {| date := Some "2024-01-01";
            hour := Some [snapshot reading; snapshot (<["pm2_5" := 20]> ∅)] |};
         {| date := Some "2024-01-02"; hour := Some [] |} ] |};
     others := [] |}.

(** One forecast day whose only hour has the weather fields but no
    [air_quality] object. *)
Definition bare_hour : weather_t :=
  {| time := Some "2024-01-01 00:00"; temp_c := Some 30; humidity := Some 60;
     wind_kph := Some 4; pressure_mb := Some 1012; air_quality := None |}.

Definition bare_day : payload :=
  {| location := Some pune; current := None;
     forecast := Some {| forecastday := Some
       [ {| date := Some "2024-01-01"; hour := Some [bare_hour] |} ] |};
     others := [] |}.

(** One forecast day with an hour reporting PM2.5 = 10 and an hour
    without [air_quality]. *)
Definition mixed_day : payload :=
  {| location := Some pune; current := None;
     forecast := Some {| forecastday := Some
       [ {| date := Some "2024-01-01";
            hour := Some [snapshot reading; bare_hour] |} ] |};
     others := [] |}.

End Sample.

(** * Properties *)

(** ** Python numbers *)

Lemma ltb_true (x y : Q) : Py.ltb x y = true <-> x < y.
Proof.
  unfold Py.ltb. rewrite negb_true_iff.
  split; intros H.
  - apply Qnot_le_lt. intros Hle. apply Qle_bool_iff in Hle. congruence.
  - destruct (Qle_bool y x) eqn:E; [|reflexivity].
    apply Qle_bool_iff in E. apply Qle_not_lt in E. contradiction.
Qed.

Lemma ltb_false (x y : Q) : Py.ltb x y = false <-> y <= x.
Proof.
  unfold Py.ltb. rewrite negb_false_iff. apply Qle_bool_iff.
Qed.

Lemma leb_true (x y : Q) : Py.leb x y = true <-> x <= y.
Proof. apply Qle_bool_iff. Qed.

Lemma leb_false (x y : Q) : Py.leb x y = false <-> y < x.
Proof.
  unfold Py.leb. split; intros H.
  - apply Qnot_le_lt. intros Hle. apply Qle_bool_iff in Hle. congruence.
  - destruct (Qle_bool x y) eqn:E; [|reflexivity].
    apply Qle_bool_iff in E. apply Qle_not_lt in E. contradiction.
Qed.

(** Case analysis on a comparison of the source. *)
Ltac case_ltb x y :=
  let E := fresh "E" in
  destruct (Py.ltb x y) eqn:E;
  [apply ltb_true in E | apply ltb_false in E].

Ltac case_leb x y :=
  let E := fresh "E" in
  destruct (Py.leb x y) eqn:E;
  [apply leb_true in E | apply leb_false in E].

(** Division by a literal becomes multiplication by its inverse, so that
    linear arithmetic applies. *)
Ltac qconst :=
  unfold Qdiv in *;
  repeat match goal with
  | |- context [Qinv ?c] =>
      let v := eval vm_compute in (Qinv c) in progress change (Qinv c) with v
  | H : context [Qinv ?c] |- _ =>
      let v := eval vm_compute in (Qinv c) in
      progress change (Qinv c) with v in H
  end.

Lemma min_cases (a b : Q) :
  (b < a /\ Py.min a b = b) \/ (a <= b /\ Py.min a b = a).
Proof. unfold Py.min. case_ltb b a; auto. Qed.

Lemma max_cases (a b : Q) :
  (a < b /\ Py.max a b = b) \/ (b <= a /\ Py.max a b = a).
Proof. unfold Py.max. case_ltb a b; auto. Qed.

(** [int] does not go below an integer lower bound of its argument. *)
Lemma int_lower_bound (z : Z) (x : Q) :
  (0 <= z)%Z -> inject_Z z <= x -> (z <= Py.int x)%Z.
Proof.
  intros Hz H. destruct x as [n d]. unfold Py.int, Qle in *. simpl in *.
  apply Z.quot_le_lower_bound; lia.
Qed.

Lemma int_nonneg (x : Q) : 0 <= x -> (0 <= Py.int x)%Z.
Proof. intros H. apply int_lower_bound; [lia | exact H]. Qed.

Lemma int_mono (x y : Q) : 0 <= x -> x <= y -> (Py.int x <= Py.int y)%Z.
Proof.
  intros Hx H. destruct x as [n d], y as [m e].
  unfold Py.int, Qle in *. simpl in *.
  apply Z.quot_le_lower_bound; [lia|].
  assert (Hq : (Z.pos d * (n ÷ Z.pos d) <= n)%Z)
    by (apply Z.mul_quot_le; lia).
  nia.
Qed.

(** ** The AQI converter *)

Import SmartCitiesModule.

Lemma calculate_aqi_top (pm25 : Q) :
  250.4 < pm25 -> calculate_aqi pm25 = 300%Z.
Proof.
  intros H. unfold calculate_aqi.
  case_leb pm25 12; [exfalso; lra|].
  case_leb pm25 35.4; [exfalso; lra|].
  case_leb pm25 55.4; [exfalso; lra|].
  case_leb pm25 150.4; [exfalso; lra|].
  apply Z.min_l. apply int_lower_bound; [lia|].
  unfold inject_Z. qconst. lra.
Qed.

Lemma calculate_aqi_nonneg (pm25 : Q) :
  0 <= pm25 -> (0 <= calculate_aqi pm25)%Z.
Proof.
  intros H. unfold calculate_aqi.
  case_leb pm25 12; [apply int_nonneg; qconst; lra|].
  case_leb pm25 35.4; [apply int_nonneg; qconst; lra|].
  case_leb pm25 55.4; [apply int_nonneg; qconst; lra|].
  case_leb pm25 150.4; [apply int_nonneg; qconst; lra|].
  apply Z.min_glb; [lia|]. apply int_nonneg. qconst. lra.
Qed.

Lemma int_upper_bound (z : Z) (x : Q) :
  0 <= x -> x <= inject_Z z -> (Py.int x <= z)%Z.
Proof.
  intros Hx H. destruct x as [n d]. unfold Py.int, Qle in *. simpl in *.
  apply Z.quot_le_upper_bound; lia.
Qed.

(** The rational model and binary64 arithmetic give the same index at
    the breakpoints and next to them. *)
Lemma binary64_agrees_near_breakpoints :
  Forall (fun q => Binary64.calculate_aqi (Binary64.lit q)
                   = Some (calculate_aqi q))
    [0; 12; 12.05; 12.1; 35.4; 35.45; 35.5; 55.4; 55.45; 55.5;
     150.4; 150.45; 150.5; 250.4; 250.5; 300].
Proof. repeat constructor. Qed.

(** Away from the four gaps the converter is monotone. *)
Lemma calculate_aqi_monotone_off_gaps (a b : Q) :
  0 <= a -> a <= b -> ~ Spec.in_gap b ->
  (calculate_aqi a <= calculate_aqi b)%Z.
Proof.
  intros Ha Hab Hgap. unfold Spec.in_gap in Hgap. unfold calculate_aqi.
  case_leb a 12; [|case_leb a 35.4; [|case_leb a 55.4; [|case_leb a 150.4]]];
  (case_leb b 12;
   [|case_leb b 35.4; [|case_leb b 55.4; [|case_leb b 150.4]]]);
  try (exfalso; lra);
  try (apply int_mono; qconst; lra);
  try (apply Z.min_le_compat_l; apply int_mono; qconst; lra);
  try (apply Z.le_trans with 50%Z;
       [apply int_upper_bound | apply int_lower_bound; [lia|]];
       unfold inject_Z; qconst; lra);
  try (apply Z.le_trans with 100%Z;
       [apply int_upper_bound | apply int_lower_bound; [lia|]];
       unfold inject_Z; qconst; lra);
  try (apply Z.le_trans with 150%Z;
       [apply int_upper_bound | apply int_lower_bound; [lia|]];
       unfold inject_Z; qconst; lra);
  try (apply Z.le_trans with 200%Z;
       [apply int_upper_bound
       |apply Z.min_glb; [lia | apply int_lower_bound; [lia|]]];
       unfold inject_Z; qconst; lra).
Qed.

(** C1. The converter is not monotone: it gives 50 at PM2.5 = 12 and 49
    at PM2.5 = 12.05, because the second branch is anchored at 12.1 while
    it starts right above 12. *)
Theorem C1_calculate_aqi_dips_after_breakpoint :
  0 <= 12 /\ 12 <= 12.05 /\
  calculate_aqi 12 = 50%Z /\ calculate_aqi 12.05 = 49%Z /\
  ~ (calculate_aqi 12 <= calculate_aqi 12.05)%Z.
Proof.
  repeat split; try (vm_compute; congruence).
Qed.

(** In exact arithmetic the six boundary values are 0, 50, 100, 150, 200
    and 300, and every value above 250.4 gives 300. *)
Lemma calculate_aqi_boundary_values_exact :
  calculate_aqi 0 = 0%Z /\ calculate_aqi 12 = 50%Z /\
  calculate_aqi 35.4 = 100%Z /\ calculate_aqi 55.4 = 150%Z /\
  calculate_aqi 150.4 = 200%Z /\ calculate_aqi 300 = 300%Z /\
  forall pm25 : Q, 250.4 < pm25 -> calculate_aqi pm25 = 300%Z.
Proof.
  repeat split; try (vm_compute; reflexivity).
  exact calculate_aqi_top.
Qed.

(** Rounding can move the index by one: at PM2.5 = 200.45 binary64
    arithmetic gives 249 where exact arithmetic gives 250. *)
Lemma binary64_rounds_down_at_200_45 :
  Binary64.calculate_aqi (Binary64.lit 200.45) = Some 249%Z
  /\ calculate_aqi 200.45 = 250%Z.
Proof. split; reflexivity. Qed.

(** C3. The code gives the six boundary values 0, 50, 100, 150, 200 and
    300, and 300 on large inputs such as 2^1023; but above the top
    breakpoint it does not always give 300: on the largest finite double
    and on infinity [int] is applied to an infinite value before the cap
    at 300, and the call raises instead of returning 300. *)
Theorem C3_cap_at_300_raises_on_overflow :
  map (fun q => Binary64.calculate_aqi (Binary64.lit q))
    [0; 12; 35.4; 55.4; 150.4; 300]
  = [Some 0; Some 50; Some 100; Some 150; Some 200; Some 300]%Z
  /\ Binary64.calculate_aqi (S754_finite false (2 ^ 52) 971) = Some 300%Z
  /\ SFltb (Binary64.lit 250.4) Binary64.max_float = true
  /\ Binary64.calculate_aqi Binary64.max_float = None
  /\ SFltb (Binary64.lit 250.4) (S754_infinity false) = true
  /\ Binary64.calculate_aqi (S754_infinity false) = None.
Proof. repeat split. Qed.

(** C10. The three copies of the converter agree on every input. *)
Theorem C10_calculate_aqi_copies_agree (pm25 : Q) :
  SmartCitiesModule.calculate_aqi pm25 = TravelEcoTourismModule.calculate_aqi pm25
  /\ TravelEcoTourismModule.calculate_aqi pm25
     = RealEstateUrbanPlanningModule.calculate_aqi pm25.
Proof. split; reflexivity. Qed.

(** ** Missing sections *)

Lemma predict_crop_impact_no_current self loc crop :
  (forall d, get_air_quality_data self loc = Some d -> current d = None) ->
  AgricultureModule.predict_crop_impact self loc crop = Ok None.
Proof.
  intros H. unfold AgricultureModule.predict_crop_impact.
  destruct (get_air_quality_data self loc) as [d|]; [|reflexivity].
  rewrite (H d eq_refl). simpl. rewrite orb_true_r. reflexivity.
Qed.

Lemma assess_health_risk_no_current self loc age conds :
  (forall d, get_air_quality_data self loc = Some d -> current d = None) ->
  HealthcareModule.assess_health_risk self loc age conds = Ok None.
Proof.
  intros H. unfold HealthcareModule.assess_health_risk.
  destruct (get_air_quality_data self loc) as [d|]; [|reflexivity].
  rewrite (H d eq_refl). simpl. rewrite orb_true_r. reflexivity.
Qed.

Lemma assess_site_suitability_no_current self loc :
  (forall d, get_air_quality_data self loc = Some d -> current d = None) ->
  RealEstateUrbanPlanningModule.assess_site_suitability self loc = Ok None.
Proof.
  intros H. unfold RealEstateUrbanPlanningModule.assess_site_suitability.
  destruct (get_air_quality_data self loc) as [d|]; [|reflexivity].
  rewrite (H d eq_refl). simpl. rewrite orb_true_r. reflexivity.
Qed.

(** The route optimiser tests only that both responses are non-empty. *)
Lemma optimize_route_no_current self a b d :
  get_air_quality_data self a = Some d ->
  has_keys d = true -> current d = None ->
  py_not (get_air_quality_data self b) = false ->
  TravelEcoTourismModule.optimize_low_pollution_route self a b
  = Raise (KeyError "current").
Proof.
  intros Ha Hk Hc Hb. unfold TravelEcoTourismModule.optimize_low_pollution_route.
  rewrite Ha. destruct (get_air_quality_data self b) as [e|]; [|discriminate].
  unfold py_not in *. rewrite Hk. apply negb_false_iff in Hb. rewrite Hb.
  simpl. unfold TravelEcoTourismModule.current_pm25. rewrite Hc. reflexivity.
Qed.

(** C2. On a response with a ['location'] section and no ['current']
    section, the crop, health and site functions return [None], but the
    route optimiser raises [KeyError] instead of returning [None]. *)
Theorem C2_route_raises_when_current_is_absent :
  let self := Sample.serve Sample.location_only in
  current Sample.location_only = None /\
  AgricultureModule.predict_crop_impact self "Pune" "wheat" = Ok None /\
  HealthcareModule.assess_health_risk self "Pune" "adult" None = Ok None /\
  RealEstateUrbanPlanningModule.assess_site_suitability self "Pune" = Ok None /\
  TravelEcoTourismModule.optimize_low_pollution_route self "Delhi" "Pune"
  = Raise (KeyError "current") /\
  TravelEcoTourismModule.optimize_low_pollution_route self "Delhi" "Pune"
  <> Ok None.
Proof.
  cbv zeta. repeat split; try reflexivity. discriminate.
Qed.

(** ** The PM2.5 estimator *)

Lemma max_eq_Qmax (a b : Q) : Py.max a b = Qmax a b.
Proof.
  unfold Py.max, Qmax, GenericMinMax.gmax.
  case_ltb a b.
  - assert (C : (a ?= b) = Lt) by (apply Qlt_alt; exact E).
    rewrite C. reflexivity.
  - destruct (a ?= b) eqn:C; try reflexivity.
    assert (H : a < b) by (apply Qlt_alt; exact C).
    apply Qle_not_lt in E. contradiction.
Qed.


Lemma clamp_max_min (lo hi x : Q) :
  lo <= hi -> Py.max lo (Py.min x hi) == Spec.clamp lo hi x.
Proof.
  intros Hlh. unfold Spec.clamp.
  destruct (min_cases x hi) as [[Hm ->]|[Hm ->]];
    [destruct (max_cases lo hi) as [[HM ->]|[HM ->]]
    |destruct (max_cases lo x) as [[HM ->]|[HM ->]]];
    destruct (Qlt_le_dec x lo); try destruct (Qlt_le_dec hi x); lra.
Qed.

(** C8. On an hour that carries [temp_c], [humidity] and [wind_kph],
    [predict_pm25] returns
    35 + max(0,(temp_c-25)/10)*5 + (humidity-50)/50*10
       + max(0,(10-wind_kph)/10)*15,
    clamped into [5, 200]. *)
Theorem C8_predict_pm25_formula (w : weather_t) (t h k : Q) :
  temp_c w = Some t -> humidity w = Some h -> wind_kph w = Some k ->
  exists v, SmartCitiesModule.predict_pm25 w = Ok v
            /\ v == Spec.estimate_pm25 t h k.
Proof.
  intros Ht Hh Hk. unfold SmartCitiesModule.predict_pm25.
  rewrite Ht, Hh, Hk. simpl. eexists. split; [reflexivity|].
  rewrite !max_eq_Qmax. unfold Spec.estimate_pm25.
  rewrite <- clamp_max_min by lra. rewrite !max_eq_Qmax. reflexivity.
Qed.

Lemma C8_witness :
  exists v, SmartCitiesModule.predict_pm25 (Sample.snapshot Sample.reading) = Ok v
            /\ v == Spec.estimate_pm25 30 60 4.
Proof.
  apply (C8_predict_pm25_formula (Sample.snapshot Sample.reading) 30 60 4);
    reflexivity.
Defined.

(** ** Real-estate suitability and the travel route score *)




(** ** Profile lookup *)






(** ** The sensitivity tables *)

Lemma get_Forall {V} (P : V -> Prop) (k : string) (d : list (string * V)) (v : V) :
  Forall (fun kv => P (snd kv)) d -> Py.get k d = Some v -> P v.
Proof.
  induction 1 as [|[k' v'] d Hx Hd IH]; simpl; [discriminate|].
  destruct (String.eqb k' k); [|exact IH].
  intros E. injection E as <-. exact Hx.
Qed.

Lemma crop_coefficients_nonneg (crop : string) (sensitivity : list (string * Q)) :
  Py.get crop AgricultureModule.crop_sensitivity = Some sensitivity ->
  Forall (fun kv => 0 <= snd kv) sensitivity.
Proof.
  apply (get_Forall (fun s => Forall (fun kv => 0 <= snd kv) s)).
  unfold AgricultureModule.crop_sensitivity.
  repeat constructor; simpl; lra.
Qed.

Lemma risk_coefficients_ge_1 (name : string) (profile : list (string * Q)) :
  Py.get name HealthcareModule.risk_profiles = Some profile ->
  Forall (fun kv => 1 <= snd kv) profile.
Proof.
  apply (get_Forall (fun s => Forall (fun kv => 1 <= snd kv) s)).
  unfold HealthcareModule.risk_profiles.
  repeat constructor; simpl; lra.
Qed.

(** Every profile that the selection returns is a row of the table. *)
Lemma selected_profile_in_table age conds profile :
  HealthcareModule.select_profile age conds = Ok profile ->
  exists name, Py.get name HealthcareModule.risk_profiles = Some profile.
Proof.
  unfold HealthcareModule.select_profile.
  destruct (HealthcareModule.flagged "asthma" conds).
  { intros E. exists "asthma". injection E as <-. reflexivity. }
  destruct (HealthcareModule.flagged "heart_disease" conds).
  { intros E. exists "heart_disease". injection E as <-. reflexivity. }
  destruct (Py.get age HealthcareModule.risk_profiles) as [p|] eqn:G.
  - intros E. exists age. rewrite G. f_equal.
    change (Ok p = Ok profile) in E. injection E as <-. reflexivity.
  - intros E. exists "adult". injection E as <-. reflexivity.
Qed.

Lemma select_profile_total age conds :
  exists profile, HealthcareModule.select_profile age conds = Ok profile.
Proof.
  unfold HealthcareModule.select_profile.
  destruct (HealthcareModule.flagged "asthma" conds); [eexists; reflexivity|].
  destruct (HealthcareModule.flagged "heart_disease" conds);
    eexists; reflexivity.
Qed.

(** ** The normalisation clip *)

Lemma crop_clip (c r : Q) : 3 <= r -> c * Py.min r 3.0 * 100 == c * 3 * 100.
Proof.
  intros H. destruct (min_cases r 3.0) as [[Hm ->]|[Hm ->]]; [lra|].
  assert (E : r == 3) by lra. rewrite E. reflexivity.
Qed.

Lemma risk_clip (c r : Q) : 1 <= c -> 3 <= r -> Py.min (r * c * 10) 10 == 10.
Proof.
  intros Hc Hr.
  assert (H : 3 <= r * c) by nra.
  destruct (min_cases (r * c * 10) 10) as [[Hm ->]|[Hm ->]]; lra.
Qed.

Lemma crop_entry_inv p c aq e den :
  Spec.reference p = Some den ->
  AgricultureModule.pollutant_entry p c aq = Some e ->
  AgricultureModule.impact_percent e
  = c * Py.min (AgricultureModule.value e / den) 3.0 * 100.
Proof.
  unfold Spec.reference, AgricultureModule.pollutant_entry,
    AgricultureModule.normalize.
  destruct (String.eqb p "pm25").
  { intros D E. injection D as <-. injection E as <-. reflexivity. }
  destruct (String.eqb p "o3").
  { intros D E. injection D as <-. injection E as <-. reflexivity. }
  destruct (String.eqb p "no2") eqn:N.
  { destruct (String.eqb p "so2") eqn:S.
    - apply String.eqb_eq in N. subst p. discriminate.
    - intros D E. injection D as <-. injection E as <-. reflexivity. }
  destruct (String.eqb p "so2"); [|discriminate].
  intros D E. injection D as <-. injection E as <-. reflexivity.
Qed.

Lemma risk_entry_inv p v profile e den :
  Spec.reference p = Some den ->
  HealthcareModule.pollutant_entry p v profile = Some e ->
  exists c, Py.get p profile = Some c
            /\ HealthcareModule.risk_score e = Py.min (v / den * c * 10) 10.
Proof.
  unfold Spec.reference, HealthcareModule.pollutant_entry,
    HealthcareModule.normalize.
  destruct (Py.get p profile) as [c|]; [|discriminate].
  intros D E. exists c. split; [reflexivity|]. injection E as <-. simpl.
  destruct (String.eqb p "pm25"); [injection D as <-; reflexivity|].
  destruct (String.eqb p "o3"); [injection D as <-; reflexivity|].
  destruct (String.eqb p "no2"); [injection D as <-; reflexivity|].
  destruct (String.eqb p "so2"); [injection D as <-; reflexivity|].
  discriminate.
Qed.

(** C5. Once a concentration drives its ratio to the reference value to
    3.0 or above, the per-pollutant contribution is the one computed at
    ratio 3.0, in the agriculture and in the healthcare scoring. *)
Theorem C5_clip_idempotence :
  (forall p c den aq1 aq2 e1 e2,
      Spec.reference p = Some den ->
      AgricultureModule.pollutant_entry p c aq1 = Some e1 ->
      AgricultureModule.pollutant_entry p c aq2 = Some e2 ->
      3 < AgricultureModule.value e1 / den ->
      3 <= AgricultureModule.value e2 / den ->
      AgricultureModule.impact_percent e1 == c * 3 * 100
      /\ AgricultureModule.impact_percent e1
         == AgricultureModule.impact_percent e2)
  /\
  (forall age conds profile p den v1 v2 e1 e2,
      HealthcareModule.select_profile age conds = Ok profile ->
      Spec.reference p = Some den ->
      HealthcareModule.pollutant_entry p v1 profile = Some e1 ->
      HealthcareModule.pollutant_entry p v2 profile = Some e2 ->
      3 < v1 / den -> 3 <= v2 / den ->
      HealthcareModule.risk_score e1 == HealthcareModule.risk_score e2).
Proof.
  split.
  - intros p c den aq1 aq2 e1 e2 D E1 E2 H1 H2.
    rewrite (crop_entry_inv _ _ _ _ _ D E1), (crop_entry_inv _ _ _ _ _ D E2).
    rewrite !crop_clip by lra. split; reflexivity.
  - intros age conds profile p den v1 v2 e1 e2 S D E1 E2 H1 H2.
    destruct (selected_profile_in_table _ _ _ S) as [name T].
    destruct (risk_entry_inv _ _ _ _ _ D E1) as (c & G & ->).
    destruct (risk_entry_inv _ _ _ _ _ D E2) as (c' & G' & ->).
    rewrite G in G'. injection G' as <-.
    assert (Hc : 1 <= c)
      by exact (get_Forall (fun x => 1 <= x) p profile c
                  (risk_coefficients_ge_1 _ _ T) G).
    rewrite !risk_clip by lra. reflexivity.
Qed.

Lemma C5_witness :
  exists e1 e2 r1 r2,
    AgricultureModule.pollutant_entry "pm25" 0.10 (<["pm2_5" := 60]> ∅) = Some e1
    /\ AgricultureModule.pollutant_entry "pm25" 0.10 (<["pm2_5" := 45]> ∅) = Some e2
    /\ AgricultureModule.impact_percent e1 == 30
    /\ AgricultureModule.impact_percent e1 == AgricultureModule.impact_percent e2
    /\ HealthcareModule.pollutant_entry "o3" 500
         [("pm25", 1.5); ("o3", 1.3); ("no2", 1.2); ("so2", 1.4)] = Some r1
    /\ HealthcareModule.pollutant_entry "o3" 300
         [("pm25", 1.5); ("o3", 1.3); ("no2", 1.2); ("so2", 1.4)] = Some r2
    /\ HealthcareModule.risk_score r1 == HealthcareModule.risk_score r2.
Proof.
  do 4 eexists.
  split; [reflexivity|]. split; [reflexivity|].
  destruct (proj1 C5_clip_idempotence "pm25" 0.10 15
              (<["pm2_5" := 60]> ∅) (<["pm2_5" := 45]> ∅) _ _
              eq_refl eq_refl eq_refl) as [Ha Hb];
    [vm_compute; reflexivity | vm_compute; discriminate |].
  split; [rewrite Ha; reflexivity|]. split; [exact Hb|].
  split; [reflexivity|]. split; [reflexivity|].
  apply (proj2 C5_clip_idempotence "child" None _ "o3" 100 500 300 _ _
           eq_refl eq_refl eq_refl eq_refl);
    [vm_compute; reflexivity | vm_compute; discriminate].
Defined.

(** ** Bounds of the domain scores *)

Section Bounds.

Variable air_quality_ : gmap string Q.
Hypothesis nonneg : map_Forall (fun _ v => 0 <= v) air_quality_.







End Bounds.


Lemma has_keys_current (d : payload) (cur : weather_t) :
  current d = Some cur -> has_keys d = true.
Proof.
  intros H. unfold has_keys. rewrite H. simpl.
  rewrite orb_true_r. reflexivity.
Qed.



(** ** The forecast aggregator *)

Lemma hour_values_qualifying (p : string) (hours : list weather_t) :
  Forall (fun h : weather_t => air_quality h <> None) hours ->
  PollutionAnalyzer.hour_values p hours = Ok (Spec.qualifying p hours).
Proof.
  induction 1 as [|h hours Hh _ IH]; [reflexivity|].
  cbn [PollutionAnalyzer.hour_values]. rewrite IH.
  unfold Spec.qualifying. cbn [omap list_omap].
  destruct (air_quality h) as [aq|]; [|congruence].
  cbn [subscript mbind result_bind]. unfold aq_present, aq_get, Py.truthy.
  destruct (aq !! p) as [v|]; [|reflexivity]. simpl.
  destruct (Qeq_dec v 0) as [E|E].
  - apply Qeq_bool_iff in E. rewrite E. reflexivity.
  - destruct (Qeq_bool v 0) eqn:B; [|reflexivity].
    apply Qeq_bool_iff in B. contradiction.
Qed.

Lemma day_average_aggregates (day : day_t) :
  Spec.readable day ->
  exists row, PollutionAnalyzer.day_average day = Ok row
              /\ Spec.aggregates day row.
Proof.
  intros [Hd Hh]. unfold PollutionAnalyzer.day_average.
  destruct (date day) as [dt|] eqn:D; [|congruence].
  cbn [subscript mbind result_bind].
  unfold PollutionAnalyzer.pollutants.
  cbn [PollutionAnalyzer.pollutant_loop].
  rewrite !(hour_values_qualifying _ _ Hh).
  cbn [mbind result_bind]. eexists. split; [reflexivity|].
  split; [simpl; rewrite D; reflexivity|].
  intros p Hp. simpl in Hp.
  destruct Hp as [<-|[<-|[<-|[<-|[<-|[<-|[]]]]]]];
    match goal with
    | |- _ = Some (Spec.daily_mean ?p ?h) =>
        unfold Spec.daily_mean; destruct (Spec.qualifying p h); reflexivity
    end.
Qed.

Lemma day_loop_aggregates (ds : list day_t) :
  Forall Spec.readable ds ->
  exists rows, PollutionAnalyzer.day_loop ds = Ok rows
               /\ Forall2 Spec.aggregates ds rows.
Proof.
  induction 1 as [|day ds Hday _ (rows & Hr & IH)].
  - exists []. split; [reflexivity | constructor].
  - destruct (day_average_aggregates day Hday) as (row & Hrow & Hagg).
    exists (row :: rows). cbn [PollutionAnalyzer.day_loop].
    rewrite Hrow, Hr. split; [reflexivity | constructor; assumption].
Qed.

Lemma slice_to_take {A} (l : list A) (n : Z) :
  (0 <= n)%Z -> Py.slice_to l n = take (Z.to_nat n) l.
Proof.
  intros H. unfold Py.slice_to.
  destruct (0 <=? n)%Z eqn:E; [reflexivity|]. lia.
Qed.

(** On forecast days that carry their date and whose hours all carry an
    [air_quality] object, the aggregator returns one row per forecast day,
    at most [days] of them, in the order of the input; each pollutant of a
    row is the mean over the hours where it is present and non-zero, and 0
    when no hour qualifies, in particular when the day has no hours. *)
Lemma process_forecast_data_on_readable_days (d : payload) (fc : forecast_t)
  (fdays : list day_t) (days : Z) :
  forecast d = Some fc -> forecastday fc = Some fdays -> (0 <= days)%Z ->
  Forall Spec.readable (take (Z.to_nat days) fdays) ->
  exists rows,
    PollutionAnalyzer.process_forecast_data (Some d) days = Ok (Some rows)
    /\ length rows = Nat.min (Z.to_nat days) (length fdays)
    /\ (forall i day,
           (i < Z.to_nat days)%nat -> fdays !! i = Some day ->
           exists row, rows !! i = Some row /\ Spec.aggregates day row)
    /\ (forall i day row p,
           (i < Z.to_nat days)%nat -> fdays !! i = Some day ->
           rows !! i = Some row -> In p PollutionAnalyzer.pollutants ->
           Spec.qualifying p (default [] (hour day)) = [] ->
           Py.get p (PollutionAnalyzer.averages row) = Some 0).
Proof.
  intros Hf Hfd Hdays Hread.
  destruct (day_loop_aggregates _ Hread) as (rows & Hrows & Hagg).
  exists rows. split; [|split; [|split]].
  - unfold PollutionAnalyzer.process_forecast_data, has_keys.
    rewrite Hf. simpl. rewrite orb_true_r. simpl. rewrite Hfd. simpl.
    rewrite (slice_to_take _ _ Hdays), Hrows. reflexivity.
  - rewrite <- (Forall2_length _ _ _ Hagg). apply length_take.
  - intros i day Hi Hday.
    apply (Forall2_lookup_l _ _ _ i day Hagg).
    rewrite lookup_take_lt by exact Hi. exact Hday.
  - intros i day row p Hi Hday Hrow Hp Hq.
    assert (Ht : take (Z.to_nat days) fdays !! i = Some day)
      by (rewrite lookup_take_lt by exact Hi; exact Hday).
    destruct (Forall2_lookup_l _ _ _ i day Hagg Ht) as (row' & Hrow' & _ & Hm).
    rewrite Hrow in Hrow'. injection Hrow' as <-.
    rewrite (Hm p Hp). unfold Spec.daily_mean. rewrite Hq. reflexivity.
Qed.

Example process_forecast_data_two_days :
  exists rows,
    PollutionAnalyzer.process_forecast_data (Some Sample.two_days) 14
    = Ok (Some rows)
    /\ length rows = 2%nat
    /\ (exists row, rows !! 0%nat = Some row
                    /\ PollutionAnalyzer.avg_date row = "2024-01-01"
                    /\ Py.get "pm2_5" (PollutionAnalyzer.averages row)
                       = Some (Spec.daily_mean "pm2_5"
                                 [Sample.snapshot Sample.reading;
                                  Sample.snapshot (<["pm2_5" := 20]> ∅)]))
    /\ (exists row, rows !! 1%nat = Some row
                    /\ Py.get "o3" (PollutionAnalyzer.averages row) = Some 0).
Proof.
  destruct (process_forecast_data_on_readable_days Sample.two_days _ _ 14
              eq_refl eq_refl ltac:(discriminate))
    as (rows & Hrun & Hlen & Hrow & Hzero).
  - simpl. repeat constructor; discriminate.
  - exists rows. split; [exact Hrun|]. split; [exact Hlen|]. split.
    + destruct (Hrow 0%nat _ ltac:(vm_compute; lia) eq_refl)
        as (row & Hr & Hd & Hm).
      exists row. split; [exact Hr|]. split.
      * simpl in Hd. injection Hd as Hd. symmetry. exact Hd.
      * apply (Hm "pm2_5"). simpl. auto.
    + destruct (Hrow 1%nat _ ltac:(vm_compute; lia) eq_refl)
        as (row & Hr & _).
      exists row. split; [exact Hr|].
      apply (Hzero 1%nat _ row "o3" ltac:(vm_compute; lia) eq_refl Hr);
        [simpl; auto | reflexivity].
Qed.

(** C7. A day whose only hour has no [air_quality] object has zero
    qualifying hours, so every pollutant should come out as 0; the
    aggregator raises [KeyError] instead, and it also raises when another
    hour of the day does qualify.  The trend table, which reads the same
    hours with [hour.get('air_quality', {})], accepts such an hour. *)
Theorem C7_hour_without_air_quality_raises :
  Forall (fun p => Spec.qualifying p [Sample.bare_hour] = []
                   /\ Spec.daily_mean p [Sample.bare_hour] = 0)
    PollutionAnalyzer.pollutants
  /\ PollutionAnalyzer.process_forecast_data (Some Sample.bare_day) 14
     = Raise (KeyError "air_quality")
  /\ Spec.qualifying "pm2_5" [Sample.snapshot Sample.reading; Sample.bare_hour]
     = [10]
  /\ PollutionAnalyzer.process_forecast_data (Some Sample.mixed_day) 14
     = Raise (KeyError "air_quality")
  /\ exists row,
       SmartCitiesModule.predict_air_quality_trends (Some Sample.bare_day) 14
       = Ok (Some [row]).
Proof.
  split; [repeat constructor|].
  split; [reflexivity|]. split; [reflexivity|]. split; [reflexivity|].
  eexists. reflexivity.
Qed.

(** * Further properties of the code *)

(** ** Range and thresholds of the converter *)

Lemma int_nonpos (x : Q) : x <= 0 -> (Py.int x <= 0)%Z.
Proof.
  intros H. destruct x as [n d]. unfold Py.int, Qle in *. simpl in *.
  assert (Hn : (n <= 0)%Z) by lia.
  replace n with (- (- n))%Z by lia.
  rewrite Z.quot_opp_l by lia.
  assert (0 <= (- n) ÷ Z.pos d)%Z by (apply Z.quot_pos; lia). lia.
Qed.

Lemma int_le (z : Z) (x : Q) :
  (0 <= z)%Z -> x <= inject_Z z -> (Py.int x <= z)%Z.
Proof.
  intros Hz H. destruct (Qlt_le_dec x 0) as [Hx|Hx].
  - pose proof (int_nonpos x (Qlt_le_weak _ _ Hx)). lia.
  - apply int_upper_bound; assumption.
Qed.

Lemma int_lt (z : Z) (x : Q) :
  (0 < z)%Z -> x < inject_Z z -> (Py.int x < z)%Z.
Proof.
  intros Hz H. destruct (Qlt_le_dec x 0) as [Hx|Hx].
  - pose proof (int_nonpos x (Qlt_le_weak _ _ Hx)). lia.
  - destruct x as [n d]. unfold Py.int, Qle, Qlt in *. simpl in *.
    apply Z.quot_lt_upper_bound; lia.
Qed.

Lemma calculate_aqi_le_300 (pm25 : Q) : (calculate_aqi pm25 <= 300)%Z.
Proof.
  unfold calculate_aqi.
  case_leb pm25 12;
    [|case_leb pm25 35.4; [|case_leb pm25 55.4; [|case_leb pm25 150.4]]];
    try (apply int_le; [lia|]; unfold inject_Z; qconst; lra).
  apply Z.le_min_l.
Qed.

(** The index never exceeds 300; it is non-negative on non-negative
    input and non-positive on non-positive input. *)
Theorem calculate_aqi_range (pm25 : Q) :
  (calculate_aqi pm25 <= 300)%Z
  /\ (0 <= pm25 -> (0 <= calculate_aqi pm25)%Z)
  /\ (pm25 <= 0 -> (calculate_aqi pm25 <= 0)%Z).
Proof.
  split; [|split].
  - apply calculate_aqi_le_300.
  - apply calculate_aqi_nonneg.
  - intros H. unfold calculate_aqi.
    case_leb pm25 12; [|exfalso; lra].
    apply int_nonpos. qconst. lra.
Qed.

Lemma calculate_aqi_range_witness :
  (0 <= calculate_aqi 80)%Z /\ (calculate_aqi (-6) <= 0)%Z.
Proof.
  split.
  - apply (proj1 (proj2 (calculate_aqi_range 80))). discriminate.
  - apply (proj2 (proj2 (calculate_aqi_range (-6)))). discriminate.
Defined.

Lemma calculate_aqi_monotone_off_gaps_witness :
  (calculate_aqi 12 <= calculate_aqi 12.1)%Z.
Proof.
  apply calculate_aqi_monotone_off_gaps.
  - discriminate.
  - discriminate.
  - unfold Spec.in_gap. intros [[_ H]|[[H _]|[[H _]|[H _]]]];
      vm_compute in H; discriminate.
Defined.

(** The index is below 50 exactly for PM2.5 below 12 and for PM2.5
    strictly between 12 and 12.1. *)
Theorem calculate_aqi_below_50 (pm25 : Q) :
  (calculate_aqi pm25 < 50)%Z <-> pm25 < 12 \/ 12 < pm25 < 12.1.
Proof.
  unfold calculate_aqi.
  case_leb pm25 12;
    [|case_leb pm25 35.4; [|case_leb pm25 55.4; [|case_leb pm25 150.4]]].
  - split.
    + intros H. left. apply Qnot_le_lt. intros H12.
      assert (50 <= Py.int (50 / 12 * pm25))%Z; [|lia].
      apply int_lower_bound; [lia|]. unfold inject_Z. qconst. lra.
    + intros [H|[H _]]; [|exfalso; lra].
      apply int_lt; [lia|]. unfold inject_Z. qconst. lra.
  - split.
    + intros H. right. split; [lra|]. apply Qnot_le_lt. intros H121.
      assert (50 <= Py.int (50 + (100 - 50) / (35.4 - 12.1) * (pm25 - 12.1)))%Z;
        [|lia].
      apply int_lower_bound; [lia|]. unfold inject_Z. qconst. lra.
    + intros [H|[_ H]]; [exfalso; lra|].
      apply int_lt; [lia|]. unfold inject_Z. qconst. lra.
  - split; [|intros [H|[_ H]]; exfalso; lra].
    intros H. exfalso.
    assert (50 <= Py.int (100 + (150 - 100) / (55.4 - 35.5) * (pm25 - 35.5)))%Z;
      [|lia].
    apply int_lower_bound; [lia|]. unfold inject_Z. qconst. lra.
  - split; [|intros [H|[_ H]]; exfalso; lra].
    intros H. exfalso.
    assert (50 <= Py.int (150 + (200 - 150) / (150.4 - 55.5) * (pm25 - 55.5)))%Z;
      [|lia].
    apply int_lower_bound; [lia|]. unfold inject_Z. qconst. lra.
  - split; [|intros [H|[_ H]]; exfalso; lra].
    intros H. exfalso.
    assert (50 <= Py.int (200 + (300 - 200) / (250.4 - 150.5) * (pm25 - 150.5)))%Z;
      [|lia].
    apply int_lower_bound; [lia|]. unfold inject_Z. qconst. lra.
Qed.

(** ** The label ladders *)

(** Each agriculture label applies on exactly one interval of the impact:
    below 2, from 2 to below 5, from 5 to below 10, and from 10 on. *)
Theorem get_risk_level_intervals (impact : Q) :
  (AgricultureModule.get_risk_level impact = "Low" <-> impact < 2)
  /\ (AgricultureModule.get_risk_level impact = "Moderate"
      <-> 2 <= impact < 5)
  /\ (AgricultureModule.get_risk_level impact = "High" <-> 5 <= impact < 10)
  /\ (AgricultureModule.get_risk_level impact = "Critical" <-> 10 <= impact).
Proof.
  unfold AgricultureModule.get_risk_level.
  case_ltb impact 2; [|case_ltb impact 5; [|case_ltb impact 10]];
    repeat split; intros; try discriminate; try reflexivity; try lra.
Qed.

(** Each health label applies on exactly one interval of the score:
    below 2, [2,4), [4,6), [6,8), and from 8 on. *)
Theorem get_health_risk_level_intervals (score : Q) :
  (HealthcareModule.get_health_risk_level score = "Low" <-> score < 2)
  /\ (HealthcareModule.get_health_risk_level score = "Moderate"
      <-> 2 <= score < 4)
  /\ (HealthcareModule.get_health_risk_level score = "High"
      <-> 4 <= score < 6)
  /\ (HealthcareModule.get_health_risk_level score = "Very High"
      <-> 6 <= score < 8)
  /\ (HealthcareModule.get_health_risk_level score = "Hazardous"
      <-> 8 <= score).
Proof.
  unfold HealthcareModule.get_health_risk_level.
  case_ltb score 2;
    [|case_ltb score 4; [|case_ltb score 6; [|case_ltb score 8]]];
    repeat split; intros; try discriminate; try reflexivity; try lra.
Qed.

(** ** The PM2.5 estimator *)

Lemma max_mono_r (a x y : Q) : x <= y -> Py.max a x <= Py.max a y.
Proof.
  intros H.
  destruct (max_cases a x) as [[? ->]|[? ->]];
    destruct (max_cases a y) as [[? ->]|[? ->]]; lra.
Qed.

Lemma min_mono_l (b x y : Q) : x <= y -> Py.min x b <= Py.min y b.
Proof.
  intros H.
  destruct (min_cases x b) as [[? ->]|[? ->]];
    destruct (min_cases y b) as [[? ->]|[? ->]]; lra.
Qed.

Lemma predict_pm25_clamped (w : weather_t) (t h k : Q) :
  temp_c w = Some t -> humidity w = Some h -> wind_kph w = Some k ->
  exists v, SmartCitiesModule.predict_pm25 w = Ok v /\ 5 <= v <= 200.
Proof.
  intros Ht Hh Hk. unfold SmartCitiesModule.predict_pm25.
  rewrite Ht, Hh, Hk. cbn [subscript mbind result_bind].
  eexists. split; [reflexivity|].
  match goal with |- _ <= Py.max 5 (Py.min ?x 200) <= _ =>
    destruct (min_cases x 200) as [[? ->]|[? ->]];
    [destruct (max_cases 5 200) as [[? ->]|[? ->]]
    |destruct (max_cases 5 x) as [[? ->]|[? ->]]]
  end; split; lra.
Qed.

(** Whatever the weather, the estimate exists when the three fields are
    present and lies between 5 and 200. *)
Theorem predict_pm25_range (w : weather_t) (t h k : Q) :
  temp_c w = Some t -> humidity w = Some h -> wind_kph w = Some k ->
  exists v, SmartCitiesModule.predict_pm25 w = Ok v /\ 5 <= v <= 200.
Proof. apply predict_pm25_clamped. Qed.

Lemma predict_pm25_range_witness :
  exists v, SmartCitiesModule.predict_pm25 (Sample.snapshot Sample.reading) = Ok v
            /\ 5 <= v <= 200.
Proof.
  apply (predict_pm25_range (Sample.snapshot Sample.reading) 30 60 4);
    reflexivity.
Defined.

(** The estimate does not decrease when the hour gets hotter or more
    humid, nor when the wind drops. *)
Theorem predict_pm25_monotone (w1 w2 : weather_t) (t1 h1 k1 t2 h2 k2 : Q) :
  temp_c w1 = Some t1 -> humidity w1 = Some h1 -> wind_kph w1 = Some k1 ->
  temp_c w2 = Some t2 -> humidity w2 = Some h2 -> wind_kph w2 = Some k2 ->
  t1 <= t2 -> h1 <= h2 -> k2 <= k1 ->
  exists v1 v2,
    SmartCitiesModule.predict_pm25 w1 = Ok v1
    /\ SmartCitiesModule.predict_pm25 w2 = Ok v2 /\ v1 <= v2.
Proof.
  intros Ht1 Hh1 Hk1 Ht2 Hh2 Hk2 Ht Hh Hk.
  unfold SmartCitiesModule.predict_pm25.
  rewrite Ht1, Hh1, Hk1, Ht2, Hh2, Hk2. cbn [subscript mbind result_bind].
  do 2 eexists. split; [reflexivity|]. split; [reflexivity|].
  apply max_mono_r, min_mono_l.
  assert (A : Py.max 0 ((t1 - 25) / 10) <= Py.max 0 ((t2 - 25) / 10))
    by (apply max_mono_r; qconst; lra).
  assert (B : Py.max 0 ((10 - k1) / 10) <= Py.max 0 ((10 - k2) / 10))
    by (apply max_mono_r; qconst; lra).
  qconst. lra.
Qed.

Lemma predict_pm25_monotone_witness :
  exists v1 v2,
    SmartCitiesModule.predict_pm25 (Sample.snapshot Sample.reading) = Ok v1
    /\ SmartCitiesModule.predict_pm25
         {| time := None; temp_c := Some 35; humidity := Some 80;
            wind_kph := Some 0; pressure_mb := None; air_quality := None |}
       = Ok v2
    /\ v1 <= v2.
Proof.
  apply (predict_pm25_monotone _ _ 30 60 4 35 80 0);
    try reflexivity; discriminate.
Defined.

(** A missing field raises [KeyError] for the first of [temp_c],
    [humidity], [wind_kph] that is absent. *)
Theorem predict_pm25_missing_field (w : weather_t) :
  (temp_c w = None ->
   SmartCitiesModule.predict_pm25 w = Raise (KeyError "temp_c"))
  /\ (temp_c w <> None -> humidity w = None ->
      SmartCitiesModule.predict_pm25 w = Raise (KeyError "humidity"))
  /\ (temp_c w <> None -> humidity w <> None -> wind_kph w = None ->
      SmartCitiesModule.predict_pm25 w = Raise (KeyError "wind_kph")).
Proof.
  unfold SmartCitiesModule.predict_pm25.
  destruct (temp_c w), (humidity w), (wind_kph w);
    repeat split; intros; try congruence; reflexivity.
Qed.

Lemma predict_pm25_missing_field_witness :
  SmartCitiesModule.predict_pm25
    {| time := None; temp_c := Some 35; humidity := None;
       wind_kph := None; pressure_mb := None; air_quality := None |}
  = Raise (KeyError "humidity").
Proof.
  apply predict_pm25_missing_field; [discriminate | reflexivity].
Defined.

(** ** Site suitability and route score *)





(** ** More pollution never lowers a score *)

Lemma crop_entry_monotone p c aq1 aq2 :
  0 <= c -> (forall k, aq_get aq1 k <= aq_get aq2 k) ->
  match AgricultureModule.pollutant_entry p c aq1,
        AgricultureModule.pollutant_entry p c aq2 with
  | Some e1, Some e2 =>
      AgricultureModule.impact_percent e1 <= AgricultureModule.impact_percent e2
  | None, None => True
  | _, _ => False
  end.
Proof.
  intros Hc H. unfold AgricultureModule.pollutant_entry,
    AgricultureModule.normalize.
  destruct (String.eqb p "pm25");
    [|destruct (String.eqb p "o3");
      [|destruct (String.eqb p "so2");
        [|destruct (String.eqb p "no2"); [|exact I]]]];
    cbn [AgricultureModule.impact_percent];
    match goal with
    | |- c * Py.min (aq_get aq1 ?k / ?d) ?m * 100
         <= c * Py.min (aq_get aq2 ?k / ?d) ?m * 100 =>
        pose proof (H k) as Hk;
        assert (Hm : Py.min (aq_get aq1 k / d) m <= Py.min (aq_get aq2 k / d) m)
          by (apply min_mono_l; qconst; lra);
        nra
    end.
Qed.

Lemma impact_loop_monotone items aq1 aq2 y1 y2 acc1 acc2 :
  Forall (fun kv => 0 <= snd kv) items ->
  (forall k, aq_get aq1 k <= aq_get aq2 k) -> y1 <= y2 ->
  fst (AgricultureModule.impact_loop items aq1 y1 acc1)
  <= fst (AgricultureModule.impact_loop items aq2 y2 acc2).
Proof.
  intros Hi H. revert y1 y2 acc1 acc2.
  induction Hi as [|[p c] items Hc _ IH]; intros y1 y2 acc1 acc2 Hy;
    cbn [AgricultureModule.impact_loop]; [exact Hy|].
  pose proof (crop_entry_monotone p c aq1 aq2 Hc H) as He.
  destruct (AgricultureModule.pollutant_entry p c aq1) as [e1|],
           (AgricultureModule.pollutant_entry p c aq2) as [e2|];
    try contradiction; apply IH; lra.
Qed.

(** With the same crop, a reading that is at least as high for every
    pollutant gives at least as high a yield loss. *)
Theorem yield_loss_monotone (s1 s2 : analyzer) (l1 l2 crop : string)
  (d1 d2 : payload) (c1 c2 : weather_t) (p1 p2 : location_t) :
  get_air_quality_data s1 l1 = Some d1 ->
  get_air_quality_data s2 l2 = Some d2 ->
  current d1 = Some c1 -> current d2 = Some c2 ->
  location d1 = Some p1 -> location d2 = Some p2 ->
  (forall k, aq_get (default ∅ (air_quality c1)) k
             <= aq_get (default ∅ (air_quality c2)) k) ->
  exists r1 r2,
    AgricultureModule.predict_crop_impact s1 l1 crop = Ok (Some r1)
    /\ AgricultureModule.predict_crop_impact s2 l2 crop = Ok (Some r2)
    /\ AgricultureModule.total_yield_loss r1
       <= AgricultureModule.total_yield_loss r2.
Proof.
  intros H1 H2 Hc1 Hc2 Hl1 Hl2 Hle.
  unfold AgricultureModule.predict_crop_impact.
  rewrite H1, H2, (has_keys_current d1 c1 Hc1), (has_keys_current d2 c2 Hc2).
  rewrite Hc1, Hc2. unfold payload_location. rewrite Hl1, Hl2.
  cbn [has orb negb subscript mbind result_bind].
  change (subscript "wheat" (Py.get "wheat" AgricultureModule.crop_sensitivity))
    with (Ok [("o3", 0.12); ("so2", 0.08); ("no2", 0.05); ("pm25", 0.10)]).
  cbn [mbind result_bind].
  set (sens := default _ (Py.get (Py.lower crop) _)).
  assert (Hs : Forall (fun kv => 0 <= snd kv) sens).
  { subst sens.
    destruct (Py.get (Py.lower crop) AgricultureModule.crop_sensitivity) eqn:G.
    - exact (crop_coefficients_nonneg _ _ G).
    - exact (crop_coefficients_nonneg "wheat" _ eq_refl). }
  pose proof (impact_loop_monotone sens _ _ 0 0 [] [] Hs Hle ltac:(lra)) as Hm.
  destruct (AgricultureModule.impact_loop sens _ 0 []) as [y1 i1].
  destruct (AgricultureModule.impact_loop sens _ 0 []) as [y2 i2].
  do 2 eexists. split; [reflexivity|]. split; [reflexivity|].
  cbn in *. apply min_mono_l. exact Hm.
Qed.

Lemma yield_loss_monotone_witness :
  exists r1 r2,
    AgricultureModule.predict_crop_impact (Sample.serve Sample.full) "Pune" "rice"
    = Ok (Some r1)
    /\ AgricultureModule.predict_crop_impact
         (Sample.serve Sample.ozone_episode) "Pune" "rice" = Ok (Some r2)
    /\ AgricultureModule.total_yield_loss r1
       <= AgricultureModule.total_yield_loss r2.
Proof.
  apply (yield_loss_monotone (Sample.serve Sample.full)
           (Sample.serve Sample.ozone_episode) "Pune" "Pune" "rice"
           Sample.full Sample.ozone_episode (Sample.snapshot Sample.reading)
           (Sample.snapshot (<["o3" := 80]> Sample.reading))
           Sample.pune Sample.pune eq_refl eq_refl eq_refl eq_refl eq_refl eq_refl).
  intros k. unfold aq_get. simpl.
  destruct (decide (k = "o3")) as [->|Hk].
  - vm_compute. discriminate.
  - rewrite lookup_insert_ne by congruence. apply Qle_refl.
Defined.

Lemma risk_entry_monotone p v1 v2 profile :
  Forall (fun kv => 1 <= snd kv) profile -> v1 <= v2 ->
  match HealthcareModule.pollutant_entry p v1 profile,
        HealthcareModule.pollutant_entry p v2 profile with
  | Some e1, Some e2 =>
      HealthcareModule.risk_score e1 <= HealthcareModule.risk_score e2
  | None, None => True
  | _, _ => False
  end.
Proof.
  intros Hp Hv. unfold HealthcareModule.pollutant_entry.
  destruct (Py.get p profile) as [c|] eqn:G; [|exact I].
  assert (Hc : 1 <= c) by exact (get_Forall (fun x => 1 <= x) p profile c Hp G).
  cbn [HealthcareModule.risk_score]. apply min_mono_l.
  assert (Hn : HealthcareModule.normalize p v1 <= HealthcareModule.normalize p v2).
  { unfold HealthcareModule.normalize.
    destruct (String.eqb p "pm25");
      [|destruct (String.eqb p "o3"); [|destruct (String.eqb p "no2")]];
      qconst; lra. }
  nra.
Qed.

Lemma risk_loop_monotone items1 items2 profile y1 y2 acc1 acc2 :
  Forall (fun kv => 1 <= snd kv) profile ->
  Forall2 (fun a b => fst a = fst b /\ snd a <= snd b) items1 items2 ->
  y1 <= y2 ->
  fst (HealthcareModule.risk_loop items1 profile y1 acc1)
  <= fst (HealthcareModule.risk_loop items2 profile y2 acc2).
Proof.
  intros Hp Hi. revert y1 y2 acc1 acc2.
  induction Hi as [|[p v1] [p' v2] items1 items2 [Hk Hv] _ IH];
    intros y1 y2 acc1 acc2 Hy; cbn [HealthcareModule.risk_loop]; [exact Hy|].
  simpl in Hk, Hv. subst p'.
  pose proof (risk_entry_monotone p v1 v2 profile Hp Hv) as He.
  destruct (HealthcareModule.pollutant_entry p v1 profile) as [e1|],
           (HealthcareModule.pollutant_entry p v2 profile) as [e2|];
    try contradiction; apply IH; lra.
Qed.

(** With the same age group and conditions, a reading that is at least
    as high for every pollutant gives at least as high a health risk. *)
Theorem health_risk_monotone (s1 s2 : analyzer) (l1 l2 age : string)
  (conds : option (list string)) (d1 d2 : payload) (c1 c2 : weather_t) :
  get_air_quality_data s1 l1 = Some d1 ->
  get_air_quality_data s2 l2 = Some d2 ->
  current d1 = Some c1 -> current d2 = Some c2 ->
  (forall k, aq_get (default ∅ (air_quality c1)) k
             <= aq_get (default ∅ (air_quality c2)) k) ->
  exists r1 r2,
    HealthcareModule.assess_health_risk s1 l1 age conds = Ok (Some r1)
    /\ HealthcareModule.assess_health_risk s2 l2 age conds = Ok (Some r2)
    /\ HealthcareModule.overall_risk_score r1
       <= HealthcareModule.overall_risk_score r2.
Proof.
  intros H1 H2 Hc1 Hc2 Hle.
  unfold HealthcareModule.assess_health_risk.
  rewrite H1, H2, (has_keys_current d1 c1 Hc1), (has_keys_current d2 c2 Hc2).
  rewrite Hc1, Hc2. cbn [has orb negb subscript mbind result_bind].
  destruct (select_profile_total age conds) as [profile S]. rewrite S.
  cbn [mbind result_bind].
  destruct (selected_profile_in_table _ _ _ S) as [name T].
  pose proof (risk_coefficients_ge_1 _ _ T) as Hp.
  set (aq1 := default ∅ (air_quality c1)) in *.
  set (aq2 := default ∅ (air_quality c2)) in *.
  set (i1 := [("pm25", aq_get aq1 "pm2_5"); ("o3", aq_get aq1 "o3");
              ("no2", aq_get aq1 "no2"); ("so2", aq_get aq1 "so2")]).
  set (i2 := [("pm25", aq_get aq2 "pm2_5"); ("o3", aq_get aq2 "o3");
              ("no2", aq_get aq2 "no2"); ("so2", aq_get aq2 "so2")]).
  assert (Hm : fst (HealthcareModule.risk_loop i1 profile 0 [])
               <= fst (HealthcareModule.risk_loop i2 profile 0 []))
    by (apply risk_loop_monotone; [exact Hp| |lra];
        repeat constructor; apply Hle).
  destruct (HealthcareModule.risk_loop i1 profile 0 []) as [y1 r1].
  destruct (HealthcareModule.risk_loop i2 profile 0 []) as [y2 r2].
  do 2 eexists. split; [reflexivity|]. split; [reflexivity|].
  cbn in *. apply min_mono_l. qconst. lra.
Qed.

Lemma health_risk_monotone_witness :
  exists r1 r2,
    HealthcareModule.assess_health_risk (Sample.serve Sample.full) "Pune"
      "child" None = Ok (Some r1)
    /\ HealthcareModule.assess_health_risk (Sample.serve Sample.ozone_episode)
         "Pune" "child" None = Ok (Some r2)
    /\ HealthcareModule.overall_risk_score r1
       <= HealthcareModule.overall_risk_score r2.
Proof.
  apply (health_risk_monotone (Sample.serve Sample.full)
           (Sample.serve Sample.ozone_episode) "Pune" "Pune" "child" None
           Sample.full Sample.ozone_episode (Sample.snapshot Sample.reading)
           (Sample.snapshot (<["o3" := 80]> Sample.reading))
           eq_refl eq_refl eq_refl eq_refl).
  intros k. unfold aq_get. simpl.
  destruct (decide (k = "o3")) as [->|Hk].
  - vm_compute. discriminate.
  - rewrite lookup_insert_ne by congruence. apply Qle_refl.
Defined.

(** ** The breakdown adds up to the score *)

Lemma min_Qeq (x y b : Q) : x == y -> Py.min x b == Py.min y b.
Proof.
  intros H.
  destruct (min_cases x b) as [[? ->]|[? ->]];
    destruct (min_cases y b) as [[? ->]|[? ->]]; lra.
Qed.

Lemma four_keys {V} (l : list (string * V)) (k1 k2 k3 k4 : string) :
  map fst l = [k1; k2; k3; k4] ->
  exists v1 v2 v3 v4, l = [(k1, v1); (k2, v2); (k3, v3); (k4, v4)].
Proof.
  destruct l as [|[a1 v1] [|[a2 v2] [|[a3 v3] [|[a4 v4] [|? ?]]]]];
    simpl; intros H; try discriminate.
  injection H as -> -> -> ->. exists v1, v2, v3, v4. reflexivity.
Qed.

Lemma crop_profile_keys (crop : string) (sensitivity : list (string * Q)) :
  Py.get crop AgricultureModule.crop_sensitivity = Some sensitivity ->
  map fst sensitivity = ["o3"; "so2"; "no2"; "pm25"].
Proof.
  apply (get_Forall (fun s => map fst s = ["o3"; "so2"; "no2"; "pm25"])).
  unfold AgricultureModule.crop_sensitivity. repeat constructor.
Qed.

Lemma risk_profile_keys (name : string) (profile : list (string * Q)) :
  Py.get name HealthcareModule.risk_profiles = Some profile ->
  map fst profile = ["pm25"; "o3"; "no2"; "so2"].
Proof.
  apply (get_Forall (fun s => map fst s = ["pm25"; "o3"; "no2"; "so2"])).
  unfold HealthcareModule.risk_profiles. repeat constructor.
Qed.

(** The crop result lists the four pollutants of the profile in its
    order, labels each impact with [get_risk_level], echoes the reading
    and the location, and its total is the sum of the impacts capped at
    50. *)
Theorem crop_impact_breakdown (self : analyzer) (loc crop : string)
  (d : payload) (cur : weather_t) (l : location_t) :
  get_air_quality_data self loc = Some d ->
  current d = Some cur -> location d = Some l ->
  exists r,
    AgricultureModule.predict_crop_impact self loc crop = Ok (Some r)
    /\ map fst (AgricultureModule.pollutant_impacts r)
       = ["o3"; "so2"; "no2"; "pm25"]
    /\ Forall (fun kv =>
                 AgricultureModule.risk_level (snd kv)
                 = AgricultureModule.get_risk_level
                     (AgricultureModule.impact_percent (snd kv)))
         (AgricultureModule.pollutant_impacts r)
    /\ AgricultureModule.total_yield_loss r
       == Py.min (impact_sum (AgricultureModule.pollutant_impacts r)) 50
    /\ AgricultureModule.air_quality_data r = default ∅ (air_quality cur)
    /\ AgricultureModule.location_data r = l.
Proof.
  intros Hd Hc Hl. unfold AgricultureModule.predict_crop_impact.
  rewrite Hd, (has_keys_current d cur Hc), Hc. unfold payload_location.
  rewrite Hl. cbn [has orb negb subscript mbind result_bind].
  change (subscript "wheat" (Py.get "wheat" AgricultureModule.crop_sensitivity))
    with (Ok [("o3", 0.12); ("so2", 0.08); ("no2", 0.05); ("pm25", 0.10)]).
  cbn [mbind result_bind].
  set (aq := default ∅ (air_quality cur)).
  set (sens := default _ (Py.get (Py.lower crop) _)).
  assert (Hk : map fst sens = ["o3"; "so2"; "no2"; "pm25"]).
  { subst sens.
    destruct (Py.get (Py.lower crop) AgricultureModule.crop_sensitivity) eqn:G.
    - exact (crop_profile_keys _ _ G).
    - reflexivity. }
  destruct (four_keys _ _ _ _ _ Hk) as (c1 & c2 & c3 & c4 & ->).
  eexists. split; [reflexivity|].
  split; [reflexivity|]. split; [repeat constructor|].
  split; [|split; reflexivity].
  apply min_Qeq. unfold impact_sum. simpl. ring.
Qed.

Lemma crop_impact_breakdown_witness :
  exists r,
    AgricultureModule.predict_crop_impact (Sample.serve Sample.full) "Pune" "Corn"
    = Ok (Some r)
    /\ AgricultureModule.total_yield_loss r
       == Py.min (impact_sum (AgricultureModule.pollutant_impacts r)) 50.
Proof.
  destruct (crop_impact_breakdown (Sample.serve Sample.full) "Pune" "Corn"
              Sample.full (Sample.snapshot Sample.reading) Sample.pune
              eq_refl eq_refl eq_refl) as (r & Hr & _ & _ & Hs & _).
  exists r. split; assumption.
Defined.

(** The health result lists the four pollutants, labels each score with
    [get_health_risk_level], keeps each score at 10 or below, and its
    overall score is a quarter of their sum capped at 10, labelled by the
    same ladder. *)
Theorem health_risk_breakdown (self : analyzer) (loc age : string)
  (conds : option (list string)) (d : payload) (cur : weather_t) :
  get_air_quality_data self loc = Some d -> current d = Some cur ->
  exists r,
    HealthcareModule.assess_health_risk self loc age conds = Ok (Some r)
    /\ map fst (HealthcareModule.pollutant_risks r)
       = ["pm25"; "o3"; "no2"; "so2"]
    /\ Forall (fun kv =>
                 HealthcareModule.risk_level (snd kv)
                 = HealthcareModule.get_health_risk_level
                     (HealthcareModule.risk_score (snd kv))
                 /\ HealthcareModule.risk_score (snd kv) <= 10)
         (HealthcareModule.pollutant_risks r)
    /\ HealthcareModule.overall_risk_score r
       == Py.min (risk_sum (HealthcareModule.pollutant_risks r) / 4) 10
    /\ HealthcareModule.overall_risk_level r
       = HealthcareModule.get_health_risk_level
           (HealthcareModule.overall_risk_score r).
Proof.
  intros Hd Hc. unfold HealthcareModule.assess_health_risk.
  rewrite Hd, (has_keys_current d cur Hc), Hc.
  cbn [has orb negb subscript mbind result_bind].
  destruct (select_profile_total age conds) as [profile S]. rewrite S.
  cbn [mbind result_bind].
  destruct (selected_profile_in_table _ _ _ S) as [name T].
  destruct (four_keys _ _ _ _ _ (risk_profile_keys _ _ T))
    as (c1 & c2 & c3 & c4 & ->).
  set (aq := default ∅ (air_quality cur)).
  eexists. split; [reflexivity|].
  split; [reflexivity|]. split.
  - repeat constructor; simpl;
      match goal with |- Py.min ?x 10 <= 10 =>
        destruct (min_cases x 10) as [[? ->]|[? ->]]; lra
      end.
  - split; [|reflexivity].
    apply min_Qeq. unfold risk_sum. simpl. field.
Qed.

Lemma health_risk_breakdown_witness :
  exists r,
    HealthcareModule.assess_health_risk (Sample.serve Sample.full) "Pune"
      "elderly" (Some ["heart_disease"]) = Ok (Some r)
    /\ HealthcareModule.overall_risk_score r
       == Py.min (risk_sum (HealthcareModule.pollutant_risks r) / 4) 10.
Proof.
  destruct (health_risk_breakdown (Sample.serve Sample.full) "Pune" "elderly"
              (Some ["heart_disease"]) Sample.full
              (Sample.snapshot Sample.reading) eq_refl eq_refl)
    as (r & Hr & _ & _ & Hs & _).
  exists r. split; assumption.
Defined.

(** ** The hourly trend table *)






(** An hour that lacks one of the copied fields makes the whole call
    raise [KeyError], even when the hour carries its own PM2.5. *)
Theorem predict_hour_missing_field (h : weather_t) :
  (time h = None ->
   SmartCitiesModule.predict_hour h = Raise (KeyError "time"))
  /\ (time h <> None -> temp_c h <> None -> humidity h <> None ->
      wind_kph h <> None -> pressure_mb h = None ->
      SmartCitiesModule.predict_hour h = Raise (KeyError "pressure_mb")).
Proof.
  unfold SmartCitiesModule.predict_hour.
  destruct (time h), (temp_c h), (humidity h), (wind_kph h), (pressure_mb h);
    split; intros; try congruence; reflexivity.
Qed.

Lemma predict_hour_missing_field_witness :
  SmartCitiesModule.predict_hour
    {| time := Some "2024-01-01 00:00"; temp_c := Some 30; humidity := Some 60;
       wind_kph := Some 4; pressure_mb := None;
       air_quality := Some Sample.reading |}
  = Raise (KeyError "pressure_mb").
Proof.
  apply predict_hour_missing_field; try discriminate. reflexivity.
Defined.

(** ** Edges of the forecast aggregator *)

(** Without a forecast section the aggregator returns [None]; a forecast
    section without ['forecastday'] raises [KeyError]; a day without
    ['date'] raises [KeyError]; and [days = 0] gives an empty frame. *)
Theorem process_forecast_data_edges (days : Z) :
  PollutionAnalyzer.process_forecast_data None days = Ok None
  /\ (forall d, forecast d = None ->
        PollutionAnalyzer.process_forecast_data (Some d) days = Ok None)
  /\ (forall d fc, forecast d = Some fc -> forecastday fc = None ->
        PollutionAnalyzer.process_forecast_data (Some d) days
        = Raise (KeyError "forecastday"))
  /\ (forall d fc day rest, forecast d = Some fc ->
        forecastday fc = Some (day :: rest) -> date day = None ->
        (0 < days)%Z ->
        PollutionAnalyzer.process_forecast_data (Some d) days
        = Raise (KeyError "date"))
  /\ (forall d fc fdays, forecast d = Some fc ->
        forecastday fc = Some fdays ->
        PollutionAnalyzer.process_forecast_data (Some d) 0 = Ok (Some [])).
Proof.
  split; [reflexivity|]. split; [|split; [|split]].
  - intros d H. unfold PollutionAnalyzer.process_forecast_data.
    rewrite H. simpl. rewrite orb_true_r. reflexivity.
  - intros d fc H H'. unfold PollutionAnalyzer.process_forecast_data, has_keys.
    rewrite H. simpl. rewrite orb_true_r. simpl. rewrite H'. reflexivity.
  - intros d fc day rest H H' Hd Hpos.
    unfold PollutionAnalyzer.process_forecast_data, has_keys.
    rewrite H. simpl. rewrite orb_true_r. simpl. rewrite H'. simpl.
    rewrite slice_to_take by lia.
    destruct (Z.to_nat days) as [|n] eqn:E; [lia|].
    cbn [take PollutionAnalyzer.day_loop].
    unfold PollutionAnalyzer.day_average. rewrite Hd. reflexivity.
  - intros d fc fdays H H'.
    unfold PollutionAnalyzer.process_forecast_data, has_keys.
    rewrite H. simpl. rewrite orb_true_r. simpl. rewrite H'. reflexivity.
Qed.

Lemma process_forecast_data_edges_witness :
  PollutionAnalyzer.process_forecast_data (Some Sample.location_only) 14
  = Ok None
  /\ PollutionAnalyzer.process_forecast_data (Some Sample.two_days) 0
     = Ok (Some []).
Proof.
  destruct (process_forecast_data_edges 14) as (_ & H1 & _ & _ & H2).
  split; [apply H1; reflexivity|].
  apply (H2 Sample.two_days _ _ eq_refl eq_refl).
Defined.

(** A negative [days] is a slice bound counted from the end: the last
    [-days] forecast days are dropped (all of them when there are no more
    than that) and the days before them are aggregated, in order. *)
Theorem process_forecast_data_negative_days (d : payload) (fc : forecast_t)
  (fdays : list day_t) (days : Z) :
  forecast d = Some fc -> forecastday fc = Some fdays -> (days < 0)%Z ->
  Forall Spec.readable fdays ->
  exists rows,
    PollutionAnalyzer.process_forecast_data (Some d) days = Ok (Some rows)
    /\ length rows = (length fdays - Z.to_nat (- days))%nat
    /\ Forall2 Spec.aggregates
         (take (length fdays - Z.to_nat (- days)) fdays) rows.
Proof.
  intros Hf Hfd Hdays Hread.
  assert (Ht : Forall Spec.readable
                 (take (length fdays - Z.to_nat (- days)) fdays))
    by (apply Forall_take; exact Hread).
  destruct (day_loop_aggregates _ Ht) as (rows & Hrows & Hagg).
  exists rows. split; [|split; [|exact Hagg]];
    [|rewrite <- (Forall2_length _ _ _ Hagg), length_take; lia].
  unfold PollutionAnalyzer.process_forecast_data, has_keys.
  rewrite Hf. simpl. rewrite orb_true_r. simpl. rewrite Hfd.
  cbn [subscript mbind result_bind].
  unfold Py.slice_to. destruct (0 <=? days)%Z eqn:E; [lia|].
  rewrite Hrows. reflexivity.
Qed.

Lemma process_forecast_data_negative_days_witness :
  (exists rows,
      PollutionAnalyzer.process_forecast_data (Some Sample.two_days) (-1)
      = Ok (Some rows)
      /\ length rows = 1%nat)
  /\ (exists rows,
      PollutionAnalyzer.process_forecast_data (Some Sample.two_days) (-5)
      = Ok (Some rows)
      /\ length rows = 0%nat).
Proof.
  split.
  - destruct (process_forecast_data_negative_days Sample.two_days _ _ (-1)
                eq_refl eq_refl eq_refl) as (rows & Hr & Hl & _).
    + simpl. repeat constructor; discriminate.
    + exists rows. split; [exact Hr | exact Hl].
  - destruct (process_forecast_data_negative_days Sample.two_days _ _ (-5)
                eq_refl eq_refl eq_refl) as (rows & Hr & Hl & _).
    + simpl. repeat constructor; discriminate.
    + exists rows. split; [exact Hr | exact Hl].
Defined.

(** ** The colour ladders of the two maps *)

Lemma SFcompare_antisym (x y : spec_float) :
  SFcompare y x = option_map CompOpp (SFcompare x y).
Proof.
  destruct x as [sx|sx| |sx mx ex], y as [sy|sy| |sy my ey];
    try reflexivity; try (destruct sx; reflexivity);
    try (destruct sy; reflexivity);
    try (destruct sx, sy; reflexivity).
  cbn [SFcompare option_map].
  change (Pos.compare_cont Eq my mx) with (Pos.compare my mx).
  change (Pos.compare_cont Eq mx my) with (Pos.compare mx my).
  rewrite (Z.compare_antisym ex ey), (Pos.compare_antisym mx my).
  destruct sx, sy, (ex ?= ey)%Z, (mx ?= my)%positive; reflexivity.
Qed.

Lemma SFleb_not_ltb (x y : spec_float) :
  x <> S754_nan -> y <> S754_nan -> SFleb x y = negb (SFltb y x).
Proof.
  intros Hx Hy. unfold SFleb, SFltb. rewrite (SFcompare_antisym x y).
  destruct (SFcompare x y) as [[| |]|] eqn:E; try reflexivity.
  destruct x, y; try congruence; discriminate E.
Qed.

Lemma SFltb_trans (a b c : spec_float) :
  SFltb a b = true -> SFltb b c = true -> SFltb a c = true.
Proof.
  unfold SFltb.
  destruct a as [sa|sa| |sa ma ea], b as [sb|sb| |sb mb eb],
           c as [sc|sc| |sc mc ec];
    cbn [SFcompare]; try discriminate;
    try (destruct sa; try discriminate; destruct sb; try discriminate;
         destruct sc; try discriminate; reflexivity);
    try (destruct sa; try discriminate; destruct sb; try discriminate;
         reflexivity);
    try (destruct sa; try discriminate; destruct sc; try discriminate;
         reflexivity);
    try (destruct sb; try discriminate; destruct sc; try discriminate;
         reflexivity);
    try (destruct sa; try discriminate; reflexivity);
    try (destruct sb; try discriminate; reflexivity);
    try (destruct sc; try discriminate; reflexivity).
  all: change (Pos.compare_cont Eq ma mb) with (Pos.compare ma mb);
    change (Pos.compare_cont Eq mb mc) with (Pos.compare mb mc);
    change (Pos.compare_cont Eq ma mc) with (Pos.compare ma mc);
    destruct sa, sb, sc; try discriminate; try reflexivity;
    destruct (Z.compare_spec ea eb), (Z.compare_spec eb ec),
             (Z.compare_spec ea ec);
    try discriminate; try reflexivity; try lia;
    destruct (Pos.compare_spec ma mb), (Pos.compare_spec mb mc),
             (Pos.compare_spec ma mc);
    cbn [CompOpp]; try discriminate; try reflexivity; intros; lia.
Qed.

(** On every binary64 value other than NaN, the [<=] ladder of
    [create_pollution_map] and the [>] ladder of [map_pollution_hotspots]
    choose the same colour; on NaN, where every comparison is false, the
    first gives red and the second green. *)
Theorem color_ladders_agree_off_nan (pm25 : spec_float) :
  (pm25 <> S754_nan ->
   Binary64.marker_color pm25 = Binary64.hotspot_color pm25)
  /\ Binary64.marker_color S754_nan = "red"
  /\ Binary64.hotspot_color S754_nan = "green".
Proof.
  split; [|split; reflexivity].
  intros Hx. unfold Binary64.marker_color, Binary64.hotspot_color.
  rewrite !(SFleb_not_ltb pm25) by (exact Hx || discriminate).
  pose proof (SFltb_trans (Binary64.of_int 12) (Binary64.of_int 35) pm25
                eq_refl) as H1.
  pose proof (SFltb_trans (Binary64.of_int 35) (Binary64.of_int 55) pm25
                eq_refl) as H2.
  destruct (SFltb (Binary64.of_int 55) pm25) eqn:A55;
    destruct (SFltb (Binary64.of_int 35) pm25) eqn:A35;
    destruct (SFltb (Binary64.of_int 12) pm25) eqn:A12;
    cbn [negb]; try reflexivity;
    try (specialize (H2 eq_refl); discriminate);
    try (specialize (H1 eq_refl); discriminate).
Qed.

Lemma color_ladders_agree_off_nan_witness :
  Binary64.marker_color (Binary64.lit 40.5)
  = Binary64.hotspot_color (Binary64.lit 40.5)
  /\ Binary64.marker_color (S754_infinity false)
     = Binary64.hotspot_color (S754_infinity false).
Proof.
  split.
  - apply (proj1 (color_ladders_agree_off_nan (Binary64.lit 40.5))).
    vm_compute. discriminate.
  - apply (proj1 (color_ladders_agree_off_nan (S754_infinity false))).
    discriminate.
Defined.

(** ** Clean-air destinations *)



(** ** Keys, requests and missing data *)

(** After the constructor, validation depends on the weather key alone:
    it succeeds exactly when that key is given, and the message about the
    Grok key is never shown, because the constructor replaces an absent
    Grok key by the default one. *)
Theorem validate_after_init (weather groq : option string) :
  PollutionAnalyzer.validate_api_keys (PollutionAnalyzer.init weather groq)
  = (PollutionAnalyzer.key_given weather,
     if PollutionAnalyzer.key_given weather then []
     else [PollutionAnalyzer.Shown "Please provide a valid WeatherAPI key."]).
Proof.
  unfold PollutionAnalyzer.validate_api_keys, PollutionAnalyzer.init. cbn.
  destruct (PollutionAnalyzer.key_given weather); [|reflexivity]. cbn.
  destruct (PollutionAnalyzer.key_given groq) eqn:G; cbn.
  - rewrite G. reflexivity.
  - reflexivity.
Qed.

Lemma fetch_without_key_sends_nothing (self : PollutionAnalyzer.t)
  (http : PollutionAnalyzer.http_t) (location : string) (days : Z) :
  PollutionAnalyzer.key_given (PollutionAnalyzer.weather_api_key self) = false ->
  PollutionAnalyzer.get_air_quality_data self http location
  = (None, [PollutionAnalyzer.Shown "Please provide a valid WeatherAPI key."])
  /\ PollutionAnalyzer.get_weather_forecast self http location days
     = (None, [PollutionAnalyzer.Shown "Please provide a valid WeatherAPI key."]).
Proof.
  intros H. unfold PollutionAnalyzer.get_air_quality_data,
    PollutionAnalyzer.get_weather_forecast, PollutionAnalyzer.validate_api_keys.
  rewrite H. split; reflexivity.
Qed.

(** Without a weather key neither fetch touches the network: each returns
    [None] and only shows the key message.  With both keys, each fetch
    sends exactly one request, to [current.json] or [forecast.json] under
    the base URL, and a failure gives [None] and one error message: there
    is no retry. *)
Theorem fetch_sends_at_most_one_request (self : PollutionAnalyzer.t)
  (http : PollutionAnalyzer.http_t) (location : string) (days : Z) :
  (PollutionAnalyzer.key_given (PollutionAnalyzer.weather_api_key self) = false ->
   PollutionAnalyzer.get_air_quality_data self http location
   = (None, [PollutionAnalyzer.Shown "Please provide a valid WeatherAPI key."])
   /\ PollutionAnalyzer.get_weather_forecast self http location days
      = (None, [PollutionAnalyzer.Shown "Please provide a valid WeatherAPI key."]))
  /\
  (PollutionAnalyzer.key_given (PollutionAnalyzer.weather_api_key self) = true ->
   PollutionAnalyzer.key_given (PollutionAnalyzer.groq_api_key self) = true ->
   let url := PollutionAnalyzer.weather_base_url self ++ "/current.json" in
   let params :=
     [("key", PollutionAnalyzer.key_param (PollutionAnalyzer.weather_api_key self));
      ("q", PollutionAnalyzer.PStr location);
      ("aqi", PollutionAnalyzer.PStr "yes")] in
   match http url params with
   | inr json =>
       PollutionAnalyzer.get_air_quality_data self http location
       = (Some json, [PollutionAnalyzer.Get url params])
   | inl e =>
       PollutionAnalyzer.get_air_quality_data self http location
       = (None, [PollutionAnalyzer.Get url params;
                 PollutionAnalyzer.Shown
                   ("Error fetching air quality data: " ++ e)])
   end).
Proof.
  split.
  - apply fetch_without_key_sends_nothing.
  - intros Hw Hg. cbv zeta.
    unfold PollutionAnalyzer.get_air_quality_data,
      PollutionAnalyzer.validate_api_keys.
    rewrite Hw, Hg. cbn [negb].
    destruct (http _ _); reflexivity.
Qed.

Lemma fetch_sends_at_most_one_request_witness :
  PollutionAnalyzer.get_air_quality_data
    (PollutionAnalyzer.init (Some "") None) (fun _ _ => inr Sample.full) "Pune"
  = (None, [PollutionAnalyzer.Shown "Please provide a valid WeatherAPI key."])
  /\ PollutionAnalyzer.get_air_quality_data
       (PollutionAnalyzer.init (Some "k") None) (fun _ _ => inl "timeout") "Pune"
     = (None,
        [PollutionAnalyzer.Get "http://api.weatherapi.com/v1/current.json"
           [("key", PollutionAnalyzer.PStr "k");
            ("q", PollutionAnalyzer.PStr "Pune");
            ("aqi", PollutionAnalyzer.PStr "yes")];
         PollutionAnalyzer.Shown "Error fetching air quality data: timeout"]).
Proof.
  split.
  - apply (proj1 (fetch_sends_at_most_one_request
                    (PollutionAnalyzer.init (Some "") None)
                    (fun _ _ => inr Sample.full) "Pune" 14)).
    reflexivity.
  - apply (proj2 (fetch_sends_at_most_one_request
                    (PollutionAnalyzer.init (Some "k") None)
                    (fun _ _ => inl "timeout") "Pune" 14));
      reflexivity.
Defined.

(** When the fetch gives no data for a place (no key, or a failed
    request), every scoring function returns [None] for it, the route
    optimiser included, and the clean-air list skips it. *)
Theorem no_data_no_score (self : analyzer) (loc other crop age : string)
  (conds : option (list string)) :
  get_air_quality_data self loc = None ->
  AgricultureModule.predict_crop_impact self loc crop = Ok None
  /\ HealthcareModule.assess_health_risk self loc age conds = Ok None
  /\ RealEstateUrbanPlanningModule.assess_site_suitability self loc = Ok None
  /\ TravelEcoTourismModule.optimize_low_pollution_route self loc other = Ok None
  /\ TravelEcoTourismModule.optimize_low_pollution_route self other loc = Ok None
  /\ TravelEcoTourismModule.identify_clean_air_destinations self [loc] = Ok [].
Proof.
  intros H.
  unfold AgricultureModule.predict_crop_impact,
    HealthcareModule.assess_health_risk,
    RealEstateUrbanPlanningModule.assess_site_suitability,
    TravelEcoTourismModule.optimize_low_pollution_route.
  cbn [TravelEcoTourismModule.identify_clean_air_destinations].
  rewrite H. cbn [py_not orb].
  repeat (split; [reflexivity|]).
  split; [|reflexivity].
  rewrite orb_true_r. reflexivity.
Qed.

Lemma no_data_no_score_witness :
  let self :=
    PollutionAnalyzer.as_analyzer (PollutionAnalyzer.init None None)
      (fun _ _ => inr Sample.full) in
  AgricultureModule.predict_crop_impact self "Pune" "wheat" = Ok None
  /\ TravelEcoTourismModule.optimize_low_pollution_route self "Pune" "Delhi"
     = Ok None.
Proof.
  cbv zeta.
  destruct (no_data_no_score
              (PollutionAnalyzer.as_analyzer (PollutionAnalyzer.init None None)
                 (fun _ _ => inr Sample.full))
              "Pune" "Delhi" "wheat" "adult" None eq_refl)
    as (H1 & _ & _ & H2 & _).
  split; assumption.
Defined.

(** ** Health recommendations *)

(** The list opens with the advice of the score's band, where the last
    band starts at 6 (so a "Very High" score of 6 to 8 already gets the
    "Hazardous" advice); the inhaler advice is present exactly when asthma
    is flagged and the heart advice exactly when heart disease is; the
    list has between two and six entries. *)
Theorem health_recommendations_content (risk_score : Q) (age_group : string)
  (conditions : option (list string)) :
  let recs :=
    HealthcareModule.generate_health_recommendations risk_score age_group
      conditions in
  (6 <= risk_score ->
   hd "" recs = "Hazardous air quality. Avoid outdoor activities.")
  /\ (risk_score < 2 ->
      hd "" recs = "Air quality is good. Normal outdoor activities are safe.")
  /\ (In "Keep rescue inhalers readily available." recs
      <-> HealthcareModule.flagged "asthma" conditions = true)
  /\ (In "Monitor heart rate and blood pressure regularly." recs
      <-> HealthcareModule.flagged "heart_disease" conditions = true)
  /\ (2 <= length recs <= 6)%nat.
Proof.
  cbv zeta. unfold HealthcareModule.generate_health_recommendations.
  case_ltb risk_score 2;
    [|case_ltb risk_score 4; [|case_ltb risk_score 6]];
    destruct (String.eqb age_group "child");
    try destruct (String.eqb age_group "elderly");
    destruct (HealthcareModule.flagged "asthma" conditions);
    destruct (HealthcareModule.flagged "heart_disease" conditions);
    cbn [app hd length In];
    (split; [intros; try reflexivity; exfalso; lra|]);
    (split; [intros; try reflexivity; exfalso; lra|]);
    (split; [split; [intros H; try reflexivity;
                     repeat (destruct H as [H|H]; try discriminate H);
                     contradiction
                    |intros H; try discriminate H; tauto]|]);
    (split; [split; [intros H; try reflexivity;
                     repeat (destruct H as [H|H]; try discriminate H);
                     contradiction
                    |intros H; try discriminate H; tauto]|]);
    lia.
Qed.

Lemma health_recommendations_content_witness :
  hd "" (HealthcareModule.generate_health_recommendations 7 "adult" None)
  = "Hazardous air quality. Avoid outdoor activities."
  /\ HealthcareModule.get_health_risk_level 7 = "Very High".
Proof.
  split; [|reflexivity].
  apply (proj1 (health_recommendations_content 7 "adult" None)).
  discriminate.
Defined.

(** ** The converter on special binary64 values *)

(** On NaN and on both infinities the converter has no value (the
    Python code raises), and so it has on the largest finite double,
    where the interpolation overflows before the cap at 300 applies. *)
Theorem binary64_no_value :
  Binary64.calculate_aqi S754_nan = None
  /\ Binary64.calculate_aqi (S754_infinity false) = None
  /\ Binary64.calculate_aqi (S754_infinity true) = None
  /\ Binary64.calculate_aqi (S754_finite false (2 ^ 53 - 1) 971) = None.
Proof. repeat split. Qed.
